(** * VMU club site backend: authentication and authorization layer

    A shallow embedding of [server.ts] (the Express application) and of the
    type declarations it imports from [types.ts].  The relational store is a
    record of tables, each table a list of rows in storage order; a handler is
    a function from a request and a store to a response and a store; the
    Express middleware chain of a route is run by [run_route].

    The two libraries the server calls for its cryptography, [bcryptjs] and
    [jsonwebtoken], are parameters of the development (Section [Server]). *)

From Stdlib Require Import String Ascii List Bool Arith Lia DecimalString DecimalNat Permutation Sorted.
Import ListNotations.
Local Open Scope string_scope.
Local Open Scope list_scope.

(** ** JavaScript helpers *)

Module Js.

(** [s.split(sep)] for a one-character separator: the fields between the
    occurrences of [sep]; never the empty array. *)
Fixpoint split (sep : ascii) (s : string) : list string :=
  match s with
  | EmptyString => [ EmptyString ]
  | String c rest =>
      if Ascii.eqb c sep then EmptyString :: split sep rest
      else match split sep rest with
           | [] => [ String c EmptyString ]
           | field :: fields => String c field :: fields
           end
  end.

(** Truthiness of a possibly undefined string: [undefined] and the empty
    string are falsy. *)
Definition truthy (v : option string) : bool :=
  match v with
  | None => false
  | Some s => negb (String.eqb s "")
  end.

(** [a || b] on a possibly undefined string and a string default. *)
Definition or_else (a : option string) (b : string) : string :=
  match a with
  | Some s => if String.eqb s "" then b else s
  | None => b
  end.

(** Whether a string contains the character [c]. *)
Fixpoint mentions (c : ascii) (s : string) : bool :=
  match s with
  | EmptyString => false
  | String d rest => Ascii.eqb d c || mentions c rest
  end.

(** What an awaited call comes to: the value it returns, or the error it
    throws. *)
Inductive outcome (A : Type) : Type :=
| Returns (a : A)
| Throws (error : string).
Arguments Returns {A} a.
Arguments Throws {A} error.

End Js.

(** ** types.ts *)

Inductive AdminRole : Type :=
| ADMIN
| SUPERADMIN.

(** The string value of the enum member. *)
Definition AdminRole_value (r : AdminRole) : string :=
  match r with
  | ADMIN => "ADMIN"
  | SUPERADMIN => "SUPERADMIN"
  end.

Record AdminUser : Type := mkAdminUser {
  au_id : nat;
  au_email : string;
  au_role : AdminRole;
  au_clubId : string
}.

(** ** The store

    One record per table the server queries.  Column names are those of the
    SQL statements in [server.ts]. *)

Record UserRow : Type := mkUserRow {
  u_id : nat;
  u_email : string;
  u_password_hash : string;
  u_is_superadmin : bool
}.

Record ClubAdminRow : Type := mkClubAdminRow {
  ca_user_id : nat;
  ca_club_id : string;
  ca_role : string
}.

Record TeamMemberRow : Type := mkTeamMemberRow {
  tm_id : nat;
  tm_club_id : string;
  tm_name : string;
  tm_role : string;
  tm_grade : string;
  tm_bio : string;
  tm_photo_url : option string
}.

Record GalleryEventRow : Type := mkGalleryEventRow {
  ge_id : nat;
  ge_club_id : string;
  ge_title : string;
  ge_images : string
}.

Record NewsArticleRow : Type := mkNewsArticleRow {
  na_id : nat;
  na_club_id : string;
  na_title : string;
  na_author : string;
  na_content : string;
  na_image_url : option string;
  na_created_at : nat
}.

Record BlogPostRow : Type := mkBlogPostRow {
  bp_id : nat;
  bp_club_id : string;
  bp_title : string;
  bp_author : string;
  bp_excerpt : string;
  bp_content : string;
  bp_image_url : option string;
  bp_created_at : nat
}.

Record ApplicationFormRow : Type := mkApplicationFormRow {
  af_url : string;
  af_fileName : string;
  af_updatedAt : nat
}.

(** Modelled from the spec: the table declarations are not part of the
    sources.  Accounts carry a numeric id assigned by the store (a counter per
    table that only grows), and the email of an account is unique. *)
Record Db : Type := mkDb {
  users : list UserRow;
  users_next_id : nat;
  club_admins : list ClubAdminRow;
  team_members : list TeamMemberRow;
  team_members_next_id : nat;
  gallery_events : list GalleryEventRow;
  news_articles : list NewsArticleRow;
  news_articles_next_id : nat;
  blog_posts : list BlogPostRow;
  application_forms : list ApplicationFormRow
}.

Definition set_users (db : Db) (us : list UserRow) (next : nat)
                     (cas : list ClubAdminRow) : Db :=
  mkDb us next cas
       (team_members db) (team_members_next_id db) (gallery_events db)
       (news_articles db) (news_articles_next_id db) (blog_posts db)
       (application_forms db).

Definition set_team_members (db : Db) (tms : list TeamMemberRow) (next : nat) : Db :=
  mkDb (users db) (users_next_id db) (club_admins db)
       tms next (gallery_events db)
       (news_articles db) (news_articles_next_id db) (blog_posts db)
       (application_forms db).

Definition set_news_articles (db : Db) (ars : list NewsArticleRow) (next : nat) : Db :=
  mkDb (users db) (users_next_id db) (club_admins db)
       (team_members db) (team_members_next_id db) (gallery_events db)
       ars next (blog_posts db)
       (application_forms db).

Module Sql.

(** A store error (a violated constraint) or a value. *)
Inductive result (A : Type) : Type :=
| Ok (a : A)
| Err (msg : string).
Arguments Ok {A} a.
Arguments Err {A} msg.

(** [ORDER BY key DESC]: insertion of a row before the first row whose key is
    not larger, so rows with equal keys keep their storage order. *)
Fixpoint insert_desc {A : Type} (key : A -> nat) (x : A) (l : list A) : list A :=
  match l with
  | [] => [ x ]
  | y :: rest =>
      if Nat.ltb (key y) (key x) then x :: y :: rest
      else y :: insert_desc key x rest
  end.

Fixpoint order_by_desc {A : Type} (key : A -> nat) (l : list A) : list A :=
  match l with
  | [] => []
  | x :: rest => insert_desc key x (order_by_desc key rest)
  end.

(** [SELECT * FROM users WHERE is_superadmin = ?] *)
Definition select_users_by_flag (db : Db) (flag : bool) : list UserRow :=
  filter (fun u => Bool.eqb (u_is_superadmin u) flag) (users db).

(** [SELECT * FROM users WHERE email = ?]  (text compared by equality). *)
Definition select_users_by_email (db : Db) (email : string) : list UserRow :=
  filter (fun u => String.eqb (u_email u) email) (users db).

(** [SELECT club_id FROM club_admins WHERE user_id = ?] *)
Definition select_club_ids (db : Db) (user_id : nat) : list string :=
  map ca_club_id (filter (fun ca => Nat.eqb (ca_user_id ca) user_id) (club_admins db)).

(** [INSERT INTO users (email, password_hash, is_superadmin) VALUES (?, ?, ?)]:
    refused when the email is taken; otherwise the row gets the next id. *)
Definition insert_user (db : Db) (email hash : string) (flag : bool)
  : result (nat * Db) :=
  match select_users_by_email db email with
  | _ :: _ => Err "ER_DUP_ENTRY"
  | [] =>
      let id := users_next_id db in
      Ok (id, set_users db (users db ++ [ mkUserRow id email hash flag ])
                        (S id) (club_admins db))
  end.

End Sql.

(** ** Requests, responses and the middleware chain *)

(** A file of a multipart request as the disk storage of the upload
    middleware names it ([filename]) and as the client named it. *)
Record UploadedFile : Type := mkUploadedFile {
  filename : string;
  originalname : string
}.

(** The fields of [req.body] the modelled handlers read.  The password is
    [None] when the body has no [password] or one that is not a string. *)
Record ReqBody : Type := mkReqBody {
  b_email : string;
  b_password : option string;
  b_name : string;
  b_role : string;
  b_grade : string;
  b_bio : string;
  b_title : string;
  b_author : string;
  b_content : string
}.

Record Request : Type := mkRequest {
  authorization : option string;      (* req.headers.authorization *)
  params_clubId : string;             (* req.params.clubId *)
  params_adminId : string;            (* req.params.adminId *)
  body : ReqBody;                     (* req.body *)
  upload : option UploadedFile;       (* the file part of the request, if any *)
  file : option UploadedFile;         (* req.file, set by the upload middleware *)
  user : option AdminUser;            (* req.user, set by authMiddleware *)
  req_time : nat                      (* the clock when the request is served *)
}.

Definition set_user (req : Request) (u : AdminUser) : Request :=
  mkRequest (authorization req) (params_clubId req) (params_adminId req)
            (body req) (upload req) (file req) (Some u) (req_time req).

Definition set_file (req : Request) (f : option UploadedFile) : Request :=
  mkRequest (authorization req) (params_clubId req) (params_adminId req)
            (body req) (upload req) f (user req) (req_time req).

Inductive ResBody : Type :=
| Send (text : option string)                 (* res.send(text), res.send() *)
| JsonLogin (user : AdminUser) (token : string)
| JsonTeam (rows : list TeamMemberRow)
| JsonTeamCreated (id : nat) (fields : ReqBody) (photoUrl : option string)
| JsonGallery (rows : list GalleryEventRow)
| JsonNews (rows : list NewsArticleRow)
| JsonNewsCreated (row : option NewsArticleRow)
| JsonBlogs (rows : list BlogPostRow)
| JsonForm (row : ApplicationFormRow)
| JsonAdmins (rows : list AdminUser).

Record Response : Type := mkResponse {
  status : nat;
  payload : ResBody
}.

(** [res.status(code).send(text)] *)
Definition send (code : nat) (text : string) : Response :=
  mkResponse code (Send (Some text)).

(** [res.json(value)]: the status stays at its default. *)
Definition json (value : ResBody) : Response :=
  mkResponse 200 value.

(** A middleware either answers the request or calls [next()], handing the
    request (with what it attached to it) to the rest of the chain. *)
Inductive Step : Type :=
| Respond (res : Response)
| Next (req : Request).

Definition Middleware : Type := Request -> Step.
Definition Handler : Type := Request -> Db -> Response * Db.

(** A handler that awaits a call which may throw and does not catch the
    error: its promise is then rejected and the handler sends no response. *)
Definition ThrowingHandler : Type := Request -> Db -> Js.outcome (Response * Db).

(** [app.METHOD(path, m1, ..., mk, handler)]. *)
Fixpoint run_route (chain : list Middleware) (handler : Handler)
                   (req : Request) (db : Db) : Response * Db :=
  match chain with
  | [] => handler req db
  | m :: rest =>
      match m req with
      | Respond res => (res, db)
      | Next req' => run_route rest handler req' db
      end
  end.

(** [upload.single(field)]: the stored file of the request becomes
    [req.file]. *)
Definition upload_single : Middleware :=
  fun req => Next (set_file req (upload req)).

(** [process.env] as far as the server reads it. *)
Record Env : Type := mkEnv {
  env_JWT_SECRET : option string;
  env_SUPERADMIN_EMAIL : option string;
  env_SUPERADMIN_PASSWORD : option string
}.

(** ** A reference instance of the libraries

    Executable stand-ins for [bcryptjs], [jsonwebtoken] and the store's
    comparison of an id with a path parameter.  They show that what the
    development assumes of the libraries can be met, and let the handlers be
    run on concrete requests. *)

Module Reference.

Definition bcrypt_hash (password : string) (rounds : nat) (salt : string) : string :=
  (salt ++ "$" ++ password)%string.

Definition bcrypt_compare (password hash : string) : bool :=
  String.eqb (last (Js.split "$" hash) "") password.

Fixpoint unary (n : nat) : string :=
  match n with
  | 0 => EmptyString
  | S k => String "1" (unary k)
  end.

Fixpoint read_unary (s : string) : nat * string :=
  match s with
  | String c rest =>
      if Ascii.eqb c "1" then
        let (n, r) := read_unary rest in (S n, r)
      else (0, s)
  | EmptyString => (0, s)
  end.

Fixpoint take (n : nat) (s : string) : string :=
  match n, s with
  | S k, String c rest => String c (take k rest)
  | _, _ => EmptyString
  end.

Fixpoint drop (n : nat) (s : string) : string :=
  match n, s with
  | S k, String _ rest => drop k rest
  | _, _ => s
  end.

(** A text field, preceded by its length in unary and a dot. *)
Definition field (f : string) : string :=
  (unary (String.length f) ++ "." ++ f)%string.

Definition read_field (s : string) : option (string * string) :=
  let (n, r) := read_unary s in
  match r with
  | String "." r' => Some (take n r', drop n r')
  | _ => None
  end.

Definition role_tag (r : AdminRole) : ascii :=
  match r with
  | ADMIN => "A"%char
  | SUPERADMIN => "S"%char
  end.

Definition read_role_tag (c : ascii) : option AdminRole :=
  if Ascii.eqb c "A" then Some ADMIN
  else if Ascii.eqb c "S" then Some SUPERADMIN
  else None.

(** The token keeps the key it was signed with next to the payload; the time
    of issue is not recorded. *)
Definition jwt_sign (p : AdminUser) (secret : string) (iat : nat) : string :=
  (field secret
   ++ String (role_tag (au_role p))
        (unary (au_id p) ++ "." ++ field (au_email p) ++ field (au_clubId p)))%string.

Definition jwt_verify (token secret : string) : option AdminUser :=
  match read_field token with
  | Some (key, String tag rest) =>
      if String.eqb key secret then
        match read_role_tag tag, read_unary rest with
        | Some role, (id, String "." rest1) =>
            match read_field rest1 with
            | Some (email, rest2) =>
                match read_field rest2 with
                | Some (clubId, EmptyString) => Some (mkAdminUser id email role clubId)
                | _ => None
                end
            | None => None
            end
        | _, _ => None
        end
      else None
  | _ => None
  end.

(** The id column equals the parameter when the parameter is the id in
    decimal. *)
Definition sql_id_eq (id : nat) (param : string) : bool :=
  String.eqb (NilEmpty.string_of_uint (Nat.to_uint id)) param.

Definition env : Env := mkEnv None None None.

End Reference.

(** ** A small store and a few requests, to run the handlers on *)

Module Sample.

Definition superadmin : UserRow :=
  mkUserRow 1 "superadmin@example.com"
            (Reference.bcrypt_hash "password123" 10 "s1") true.

Definition admin_a : UserRow :=
  mkUserRow 2 "a@x.com" (Reference.bcrypt_hash "secret" 10 "s2") false.

(** An admin account whose row in club_admins is missing. *)
Definition unbound : UserRow :=
  mkUserRow 3 "c@x.com" (Reference.bcrypt_hash "password123" 10 "s3") false.

Definition db : Db :=
  mkDb [ superadmin; admin_a; unbound ] 4
       [ mkClubAdminRow 2 "A" "ADMIN" ]
       [ mkTeamMemberRow 1 "A" "Nimal" "President" "12" "" None;
         mkTeamMemberRow 2 "B" "Kamal" "Member" "11" "" None ] 3
       [ mkGalleryEventRow 1 "A" "Sports meet" "[]" ]
       [ mkNewsArticleRow 1 "A" "Old" "x" "..." None 10;
         mkNewsArticleRow 2 "A" "New" "x" "..." None 20;
         mkNewsArticleRow 3 "B" "Other" "y" "..." None 15 ] 4
       [ mkBlogPostRow 1 "B" "Post" "y" "..." "..." None 5 ]
       [ mkApplicationFormRow "/uploads/1-form.pdf" "form.pdf" 100;
         mkApplicationFormRow "/uploads/2-form.pdf" "form.pdf" 200 ].

(** A store in which nobody is a superadmin. *)
Definition db_fresh : Db :=
  mkDb [ admin_a ] 3 [ mkClubAdminRow 2 "A" "ADMIN" ] [] 1 [] [] 1 [] [].

Definition no_fields : ReqBody := mkReqBody "" None "" "" "" "" "" "" "".

Definition credentials (email password : string) : ReqBody :=
  mkReqBody email (Some password) "" "" "" "" "" "" "".

Definition member_fields : ReqBody :=
  mkReqBody "" None "Sunil" "Member" "10" "" "Match report" "Sunil" "We won.".

Definition request (header : option string) (clubId adminId : string)
                   (fields : ReqBody) : Request :=
  mkRequest header clubId adminId fields None None None 0.

Definition admin_a_identity : AdminUser := mkAdminUser 2 "a@x.com" ADMIN "A".

Definition superadmin_identity : AdminUser :=
  mkAdminUser 1 "superadmin@example.com" SUPERADMIN "*".

Definition secret : string := "your_default_secret".

Definition admin_a_token : string := Reference.jwt_sign admin_a_identity secret 0.

Definition superadmin_token : string :=
  Reference.jwt_sign superadmin_identity secret 0.

Definition bearer (token : string) : option string :=
  Some ("Bearer " ++ token)%string.

End Sample.

(** ** More of the store, of the replies and of the upload storage *)

Definition set_application_forms (db : Db) (forms : list ApplicationFormRow) : Db :=
  mkDb (users db) (users_next_id db) (club_admins db)
       (team_members db) (team_members_next_id db) (gallery_events db)
       (news_articles db) (news_articles_next_id db) (blog_posts db)
       forms.

Module SqlWrite.

(** [INSERT INTO club_admins (user_id, club_id, role) VALUES (?, ?, ?)] *)
Definition insert_club_admin (db : Db) (user_id : nat) (club_id role : string) : Db :=
  set_users db (users db) (users_next_id db)
            (club_admins db ++ [ mkClubAdminRow user_id club_id role ]).

End SqlWrite.

(** What the store keeps true of users and club_admins: emails and ids are
    unique, ids lie below the counter, and a row of club_admins refers to a
    user (the reference that makes the deletion cascade). *)
Definition users_wf (db : Db) : Prop :=
  NoDup (map u_email (users db))
  /\ NoDup (map u_id (users db))
  /\ (forall u, In u (users db) -> u_id u < users_next_id db)
  /\ (forall ca, In ca (club_admins db) ->
                 exists u, In u (users db) /\ u_id u = ca_user_id ca).

(** The answer of a route whose handler awaits a statement the store may
    refuse: a response as before, or the JSON object of a created admin with
    status 201. *)
Inductive Reply : Type :=
| Plain (res : Response)
| CreatedAdmin (admin : AdminUser).

(** A handler whose promise is rejected sends no response; the error of the
    store is what comes out of it. *)
Definition AsyncHandler : Type := Request -> Db -> Sql.result (Reply * Db).

Fixpoint run_route_async (chain : list Middleware) (handler : AsyncHandler)
                         (req : Request) (db : Db) : Sql.result (Reply * Db) :=
  match chain with
  | [] => handler req db
  | m :: rest =>
      match m req with
      | Respond res => Sql.Ok (Plain res, db)
      | Next req' => run_route_async rest handler req' db
      end
  end.

(** The [filename] callback of the disk storage:
    [`${Date.now()}-${file.originalname}`]. *)
Definition storage_filename (now : nat) (originalname : string) : string :=
  (NilEmpty.string_of_uint (Nat.to_uint now) ++ "-" ++ originalname)%string.

(** ** App.tsx: the effect that follows the theme *)

Module App.

(** [classList.add(token)] and [classList.remove(token)] on the ordered set
    of class names of an element. *)
Definition classList_add (token : string) (classes : list string) : list string :=
  if existsb (String.eqb token) classes then classes else classes ++ [ token ].

Definition classList_remove (token : string) (classes : list string) : list string :=
  filter (fun c => negb (String.eqb c token)) classes.

(** The body of [React.useEffect(..., [theme])], on the classes of
    [document.documentElement]. *)
Definition theme_effect (theme : string) (classes : list string) : list string :=
  if String.eqb theme "dark" then classList_add "dark" classes
  else classList_remove "dark" classes.

End App.

(** ** server.ts *)

Section Server.

Variable env : Env.

(** [bcrypt.hash(password, rounds)] with the salt it draws, and
    [bcrypt.compare(password, hash)]. *)
Variable bcrypt_hash : string -> nat -> string -> string.
Variable bcrypt_compare : string -> string -> bool.

(** [jwt.sign(payload, secret)] at a given time of issue, and
    [jwt.verify(token, secret)], [None] when it throws. *)
Variable jwt_sign : AdminUser -> string -> nat -> string.
Variable jwt_verify : string -> string -> option AdminUser.

(** The store's comparison of the numeric [id] column with the text of a
    path parameter. *)
Variable sql_id_eq : nat -> string -> bool.

Definition JWT_SECRET : string :=
  Js.or_else (env_JWT_SECRET env) "your_default_secret".

(** The superadmin check of [initializeDatabase], once the pool is connected.
    The result is the store it leaves, or the error with which [startServer]
    exits. *)
Definition initializeDatabase (salt : string) (db : Db) : Sql.result Db :=
  let superAdmins := Sql.select_users_by_flag db true in
  if Nat.eqb (length superAdmins) 0 then
    let email := Js.or_else (env_SUPERADMIN_EMAIL env) "superadmin@example.com" in
    let password := Js.or_else (env_SUPERADMIN_PASSWORD env) "password123" in
    let hashedPassword := bcrypt_hash password 10 salt in
    match Sql.insert_user db email hashedPassword true with
    | Sql.Ok (_, db') => Sql.Ok db'
    | Sql.Err msg => Sql.Err msg
    end
  else Sql.Ok db.

(** [req.headers.authorization?.split(' ')[1]] *)
Definition header_token (h : option string) : option string :=
  match h with
  | Some header => nth_error (Js.split " " header) 1
  | None => None
  end.

Definition authMiddleware : Middleware :=
  fun req =>
    let token := header_token (authorization req) in
    if negb (Js.truthy token) then
      Respond (send 401 "Access denied. No token provided.")
    else
      match match token with
            | Some t => jwt_verify t JWT_SECRET
            | None => None
            end with
      | Some decoded => Next (set_user req decoded)
      | None => Respond (send 400 "Invalid token.")
      end.

Definition superadminMiddleware : Middleware :=
  fun req =>
    let role := option_map au_role (user req) in
    match role with
    | Some SUPERADMIN => Next req
    | _ => Respond (send 403 "Forbidden. Superadmin access required.")
    end.

(** [await bcrypt.compare(password, hash)]: the library compares two strings
    and throws "Illegal arguments: ..." (with the types it was given) when the
    password is not a string. *)
Definition bcrypt_compare_await (password : option string) (hash : string)
  : Js.outcome bool :=
  match password with
  | Some s => Js.Returns (bcrypt_compare s hash)
  | None => Js.Throws "Illegal arguments"
  end.

(** [app.post('/api/login')]; the handler has no [try], so what
    [bcrypt.compare] throws is what comes out of it. *)
Definition login_handler : ThrowingHandler :=
  fun req db =>
    let email := b_email (body req) in
    let password := b_password (body req) in
    match Sql.select_users_by_email db email with
    | [] => Js.Returns (send 400 "Invalid email or password.", db)
    | user :: _ =>
        match bcrypt_compare_await password (u_password_hash user) with
        | Js.Throws error => Js.Throws error
        | Js.Returns validPassword =>
            if negb validPassword then
              Js.Returns (send 400 "Invalid email or password.", db)
            else
              let role := if u_is_superadmin user then SUPERADMIN else ADMIN in
              let clubId :=
                match role with
                | ADMIN =>
                    match Sql.select_club_ids db (u_id user) with
                    | club_id :: _ => club_id
                    | [] => "*"
                    end
                | SUPERADMIN => "*"
                end in
              let userPayload :=
                mkAdminUser (u_id user) (u_email user) role clubId in
              let token := jwt_sign userPayload JWT_SECRET (req_time req) in
              Js.Returns (json (JsonLogin userPayload token), db)
        end
    end.

(** The route has no middleware. *)
Definition post_api_login : ThrowingHandler := login_handler.

(** [app.get('/api/clubs/:clubId/team')] *)
Definition get_team_handler : Handler :=
  fun req db =>
    let clubId := params_clubId req in
    let members :=
      filter (fun m => String.eqb (tm_club_id m) clubId) (team_members db) in
    (json (JsonTeam members), db).

Definition get_api_clubs_team : Handler := run_route [] get_team_handler.

(** [app.post('/api/clubs/:clubId/team')] *)
Definition post_team_handler : Handler :=
  fun req db =>
    let clubId := params_clubId req in
    let b := body req in
    let photoUrl := option_map (fun f => ("/uploads/" ++ filename f)%string) (file req) in
    let insertId := team_members_next_id db in
    let row := mkTeamMemberRow insertId clubId (b_name b) (b_role b)
                               (b_grade b) (b_bio b) photoUrl in
    (mkResponse 201 (JsonTeamCreated insertId b photoUrl),
     set_team_members db (team_members db ++ [ row ]) (S insertId)).

Definition post_api_clubs_team : Handler :=
  run_route [ authMiddleware; upload_single ] post_team_handler.

(** [app.get('/api/clubs/:clubId/gallery')] *)
Definition get_gallery_handler : Handler :=
  fun req db =>
    let clubId := params_clubId req in
    let events :=
      filter (fun e => String.eqb (ge_club_id e) clubId) (gallery_events db) in
    (json (JsonGallery events), db).

Definition get_api_clubs_gallery : Handler := run_route [] get_gallery_handler.

(** [app.get('/api/clubs/:clubId/news')] *)
Definition get_news_handler : Handler :=
  fun req db =>
    let clubId := params_clubId req in
    let articles :=
      Sql.order_by_desc na_created_at
        (filter (fun a => String.eqb (na_club_id a) clubId) (news_articles db)) in
    (json (JsonNews articles), db).

Definition get_api_clubs_news : Handler := run_route [] get_news_handler.

(** [app.post('/api/clubs/:clubId/news')]; the store stamps the new row with
    the current time. *)
Definition post_news_handler : Handler :=
  fun req db =>
    let clubId := params_clubId req in
    let b := body req in
    let imageUrl := option_map (fun f => ("/uploads/" ++ filename f)%string) (file req) in
    let insertId := news_articles_next_id db in
    let row := mkNewsArticleRow insertId clubId (b_title b) (b_author b)
                                (b_content b) imageUrl (req_time req) in
    let db' := set_news_articles db (news_articles db ++ [ row ]) (S insertId) in
    let newArticle :=
      filter (fun a => Nat.eqb (na_id a) insertId) (news_articles db') in
    (mkResponse 201 (JsonNewsCreated (nth_error newArticle 0)), db').

Definition post_api_clubs_news : Handler :=
  run_route [ authMiddleware; upload_single ] post_news_handler.

(** [app.get('/api/clubs/:clubId/blogs')] *)
Definition get_blogs_handler : Handler :=
  fun req db =>
    let clubId := params_clubId req in
    let posts :=
      Sql.order_by_desc bp_created_at
        (filter (fun p => String.eqb (bp_club_id p) clubId) (blog_posts db)) in
    (json (JsonBlogs posts), db).

Definition get_api_clubs_blogs : Handler := run_route [] get_blogs_handler.

(** The rows of [users u LEFT JOIN club_admins ca ON u.id = ca.user_id]:
    a user with its club ids, or once with no club id when it has none. *)
Definition users_left_join_club_admins (db : Db) : list (UserRow * option string) :=
  flat_map
    (fun u =>
       match Sql.select_club_ids db (u_id u) with
       | [] => [ (u, None) ]
       | club_ids => map (fun c => (u, Some c)) club_ids
       end)
    (users db).

(** [app.get('/api/admins')] *)
Definition get_admins_handler : Handler :=
  fun req db =>
    let rows := users_left_join_club_admins db in
    let admins :=
      map (fun r : UserRow * option string =>
             let (u, club_id) := r in
             mkAdminUser (u_id u) (u_email u)
                         (if u_is_superadmin u then SUPERADMIN else ADMIN)
                         (Js.or_else club_id "*"))
          rows in
    (json (JsonAdmins admins), db).

Definition get_api_admins : Handler :=
  run_route [ authMiddleware; superadminMiddleware ] get_admins_handler.

(** The rows [DELETE FROM users WHERE id = ? AND is_superadmin = FALSE]
    removes. *)
Definition delete_matches (adminId : string) (u : UserRow) : bool :=
  sql_id_eq (u_id u) adminId && Bool.eqb (u_is_superadmin u) false.

(** [app.delete('/api/admins/:adminId')]; the rows of [club_admins] that
    refer to a removed user go with it ([CASCADE]). *)
Definition delete_admin_handler : Handler :=
  fun req db =>
    let adminId := params_adminId req in
    let removed := filter (delete_matches adminId) (users db) in
    let kept := filter (fun u => negb (delete_matches adminId u)) (users db) in
    let bindings :=
      filter (fun ca =>
                negb (existsb (fun u => Nat.eqb (u_id u) (ca_user_id ca)) removed))
             (club_admins db) in
    (mkResponse 204 (Send None),
     set_users db kept (users_next_id db) bindings).

Definition delete_api_admins : Handler :=
  run_route [ authMiddleware; superadminMiddleware ] delete_admin_handler.

(** [app.get('/api/clubs/:clubId/application')] *)
Definition get_application_handler : Handler :=
  fun req db =>
    let forms := firstn 1 (Sql.order_by_desc af_updatedAt (application_forms db)) in
    match forms with
    | [] => (send 404 "Application form not found.", db)
    | form :: _ => (json (JsonForm form), db)
    end.

Definition get_api_clubs_application : Handler :=
  run_route [] get_application_handler.

(** [app.post('/api/admins')]; [clubId] is [req.body.clubId] and [salt] the
    salt [bcrypt.hash] draws. *)
Definition post_admins_handler (salt clubId : string) : AsyncHandler :=
  fun req db =>
    let email := b_email (body req) in
    let tempPassword := "password123" in
    let hashedPassword := bcrypt_hash tempPassword 10 salt in
    match Sql.insert_user db email hashedPassword false with
    | Sql.Err msg => Sql.Err msg
    | Sql.Ok (newUserId, db1) =>
        let db2 := SqlWrite.insert_club_admin db1 newUserId clubId "ADMIN" in
        Sql.Ok (CreatedAdmin (mkAdminUser newUserId email ADMIN clubId), db2)
    end.

Definition post_api_admins (salt clubId : string) : AsyncHandler :=
  run_route_async [ authMiddleware; superadminMiddleware ]
                  (post_admins_handler salt clubId).

(** [app.delete('/api/team/:memberId')]; [memberId] is
    [req.params.memberId]. *)
Definition delete_team_handler (memberId : string) : Handler :=
  fun req db =>
    let kept :=
      filter (fun m => negb (sql_id_eq (tm_id m) memberId)) (team_members db) in
    (mkResponse 204 (Send None),
     set_team_members db kept (team_members_next_id db)).

Definition delete_api_team (memberId : string) : Handler :=
  run_route [ authMiddleware ] (delete_team_handler memberId).

(** [app.put('/api/application')].  The clock is read twice: for the row
    that is stored, before the insertion is awaited ([req_time]), and for the
    answer, after it ([answered_at]). *)
Definition put_application_handler (answered_at : nat) : Handler :=
  fun req db =>
    match file req with
    | None => (send 400 "No file uploaded.", db)
    | Some f =>
        let url := ("/uploads/" ++ filename f)%string in
        let stored := mkApplicationFormRow url (originalname f) (req_time req) in
        (json (JsonForm (mkApplicationFormRow url (originalname f) answered_at)),
         set_application_forms db (application_forms db ++ [ stored ]))
    end.

Definition put_api_application (answered_at : nat) : Handler :=
  run_route [ authMiddleware; upload_single ]
            (put_application_handler answered_at).

(** ** Properties *)

(** *** The authorization header *)

Lemma split_no_sep (c : ascii) (s : string) :
  Js.mentions c s = false -> Js.split c s = [ s ].
Proof.
  induction s as [|d s IH]; simpl; intros H; [reflexivity|].
  apply orb_false_iff in H as [Hd Hs].
  rewrite Hd, (IH Hs). reflexivity.
Qed.

Lemma split_app (c : ascii) (a b : string) :
  Js.mentions c a = false ->
  Js.split c (a ++ String c b) = a :: Js.split c b.
Proof.
  induction a as [|d a IH]; simpl; intros H.
  - now rewrite Ascii.eqb_refl.
  - apply orb_false_iff in H as [Hd Ha].
    rewrite Hd, (IH Ha). reflexivity.
Qed.

Lemma header_token_bare (h : string) :
  Js.mentions " " h = false -> header_token (Some h) = None.
Proof.
  intros H. unfold header_token. now rewrite (split_no_sep _ _ H).
Qed.

Lemma header_token_scheme (scheme tok : string) :
  Js.mentions " " scheme = false ->
  Js.mentions " " tok = false ->
  header_token (Some (scheme ++ " " ++ tok)%string) = Some tok.
Proof.
  intros Hs Ht. unfold header_token.
  change (scheme ++ " " ++ tok)%string with (scheme ++ String " " tok)%string.
  now rewrite (split_app _ _ _ Hs), (split_no_sep _ _ Ht).
Qed.

Lemma truthy_some (t : string) : t <> "" -> Js.truthy (Some t) = true.
Proof.
  intros H. unfold Js.truthy.
  destruct (String.eqb_spec t ""); [contradiction | reflexivity].
Qed.

Lemma authMiddleware_no_token (req : Request) :
  Js.truthy (header_token (authorization req)) = false ->
  authMiddleware req = Respond (send 401 "Access denied. No token provided.").
Proof.
  unfold authMiddleware. intros H. now rewrite H.
Qed.

Lemma authMiddleware_token (req : Request) (t : string) :
  header_token (authorization req) = Some t -> t <> "" ->
  authMiddleware req =
  match jwt_verify t JWT_SECRET with
  | Some decoded => Next (set_user req decoded)
  | None => Respond (send 400 "Invalid token.")
  end.
Proof.
  unfold authMiddleware. intros H Hne.
  rewrite H, (truthy_some _ Hne). reflexivity.
Qed.

(** Whatever the request, [authMiddleware] answers 401, answers 400, or
    attaches an identity that [jwt.verify] returned for the secret. *)
Lemma authMiddleware_outcomes (req : Request) :
  authMiddleware req = Respond (send 401 "Access denied. No token provided.")
  \/ authMiddleware req = Respond (send 400 "Invalid token.")
  \/ exists t decoded,
       jwt_verify t JWT_SECRET = Some decoded
       /\ authMiddleware req = Next (set_user req decoded).
Proof.
  unfold authMiddleware.
  destruct (header_token (authorization req)) as [t|]; simpl; [|now left].
  destruct (String.eqb t ""); simpl; [now left|].
  destruct (jwt_verify t JWT_SECRET) as [decoded|] eqn:E.
  - right; right. now exists t, decoded.
  - right; now left.
Qed.

(** C5.  RequireToken ([authMiddleware]): a request without authorization
    header, or whose header has no second space-separated part, or an empty
    one, is answered 401; a header [scheme token] whose token [jwt.verify]
    refuses is answered 400 "Invalid token."; one whose token verifies has the
    decoded identity attached as [req.user] and goes on to the rest of the
    chain, whatever that is. *)
Theorem authMiddleware_spec (req : Request) :
  (authorization req = None ->
   authMiddleware req = Respond (send 401 "Access denied. No token provided."))
  /\ (forall h, authorization req = Some h -> Js.mentions " " h = false ->
      authMiddleware req = Respond (send 401 "Access denied. No token provided."))
  /\ (forall scheme, authorization req = Some (scheme ++ " ")%string ->
      Js.mentions " " scheme = false ->
      authMiddleware req = Respond (send 401 "Access denied. No token provided."))
  /\ (forall scheme tok,
      authorization req = Some (scheme ++ " " ++ tok)%string ->
      Js.mentions " " scheme = false -> Js.mentions " " tok = false ->
      tok <> "" ->
      (jwt_verify tok JWT_SECRET = None ->
       authMiddleware req = Respond (send 400 "Invalid token."))
      /\ (forall decoded, jwt_verify tok JWT_SECRET = Some decoded ->
          authMiddleware req = Next (set_user req decoded)
          /\ user (set_user req decoded) = Some decoded
          /\ forall rest handler db,
               run_route (authMiddleware :: rest) handler req db =
               run_route rest handler (set_user req decoded) db)).
Proof.
  split; [|split; [|split]].
  - intros H. apply authMiddleware_no_token. now rewrite H.
  - intros h H Hh. apply authMiddleware_no_token.
    now rewrite H, (header_token_bare _ Hh).
  - intros scheme H Hs. apply authMiddleware_no_token.
    rewrite H.
    change (scheme ++ " ")%string with (scheme ++ " " ++ "")%string.
    now rewrite (header_token_scheme scheme "" Hs eq_refl).
  - intros scheme tok H Hs Ht Hne.
    assert (E : authMiddleware req =
                match jwt_verify tok JWT_SECRET with
                | Some decoded => Next (set_user req decoded)
                | None => Respond (send 400 "Invalid token.")
                end).
    { apply authMiddleware_token; [|exact Hne].
      now rewrite H, header_token_scheme. }
    split.
    + intros Hv. now rewrite E, Hv.
    + intros decoded Hv. rewrite Hv in E.
      split; [exact E|]. split; [reflexivity|].
      intros rest handler db. simpl. now rewrite E.
Qed.

(** *** The superadmin gate *)

Lemma superadminMiddleware_forbids (req : Request) :
  option_map au_role (user req) <> Some SUPERADMIN ->
  superadminMiddleware req =
  Respond (send 403 "Forbidden. Superadmin access required.").
Proof.
  unfold superadminMiddleware. intros H.
  destruct (option_map au_role (user req)) as [[|]|]; congruence.
Qed.

Lemma superadminMiddleware_passes (req : Request) (u : AdminUser) :
  user req = Some u -> au_role u = SUPERADMIN ->
  superadminMiddleware req = Next req.
Proof.
  unfold superadminMiddleware. intros -> Hr. simpl. now rewrite Hr.
Qed.

(** A superadmin's request does reach the handler behind the two gates. *)
Lemma superadmin_reaches_handler (req : Request) (db : Db) (handler : Handler)
      (decoded : AdminUser) :
  authMiddleware req = Next (set_user req decoded) ->
  au_role decoded = SUPERADMIN ->
  run_route [ authMiddleware; superadminMiddleware ] handler req db =
  handler (set_user req decoded) db.
Proof.
  intros Ha Hr. simpl. rewrite Ha.
  now rewrite (superadminMiddleware_passes (set_user req decoded) decoded eq_refl Hr).
Qed.

(** C4.  RequireSuperadmin ([superadminMiddleware]) in the chain of the
    account-management routes: when [authMiddleware] answers the request
    itself, its answer is the route's answer whatever gate and handler follow;
    when it attaches an identity whose role is not SUPERADMIN (a verified
    token with role ADMIN included), the route answers 403, the store is left
    as it was, and this holds for every handler behind the gate, so the
    handler is not run. *)
Theorem superadminMiddleware_spec (req : Request) (db : Db) :
  (forall res (gate : Middleware) (handler : Handler),
      authMiddleware req = Respond res ->
      run_route [ authMiddleware; gate ] handler req db = (res, db))
  /\ (forall req' (handler : Handler),
      authMiddleware req = Next req' ->
      option_map au_role (user req') <> Some SUPERADMIN ->
      run_route [ authMiddleware; superadminMiddleware ] handler req db =
      (send 403 "Forbidden. Superadmin access required.", db))
  /\ (forall decoded,
      authMiddleware req = Next (set_user req decoded) ->
      au_role decoded = ADMIN ->
      get_api_admins req db =
      (send 403 "Forbidden. Superadmin access required.", db)
      /\ delete_api_admins req db =
         (send 403 "Forbidden. Superadmin access required.", db)).
Proof.
  assert (G : forall req' (handler : Handler),
             authMiddleware req = Next req' ->
             option_map au_role (user req') <> Some SUPERADMIN ->
             run_route [ authMiddleware; superadminMiddleware ] handler req db =
             (send 403 "Forbidden. Superadmin access required.", db)).
  { intros req' handler Ha Hr. simpl. rewrite Ha.
    now rewrite (superadminMiddleware_forbids _ Hr). }
  split; [|split].
  - intros res gate handler Ha. simpl. now rewrite Ha.
  - exact G.
  - intros decoded Ha Hr.
    assert (Hn : option_map au_role (user (set_user req decoded)) <> Some SUPERADMIN)
      by (simpl; rewrite Hr; discriminate).
    split; [apply (G _ get_admins_handler Ha Hn)
           | apply (G _ delete_admin_handler Ha Hn)].
Qed.

(** *** Tenant-scoped writes *)

(** C1, as the code has it.  The handlers that write a tenant's team roster
    and news do not look at the identity [authMiddleware] attached: every
    request that passes [authMiddleware], whatever the role and the club id
    of its token, is answered 201 and stores a row under the club id of the
    path. *)
Theorem tenant_writes_ignore_scope (req : Request) (db : Db) (decoded : AdminUser) :
  authMiddleware req = Next (set_user req decoded) ->
  let photo := option_map (fun f => ("/uploads/" ++ filename f)%string) (upload req) in
  let team := post_api_clubs_team req db in
  let news := post_api_clubs_news req db in
  status (fst team) = 201
  /\ team_members (snd team) =
     team_members db ++
     [ mkTeamMemberRow (team_members_next_id db) (params_clubId req)
                       (b_name (body req)) (b_role (body req))
                       (b_grade (body req)) (b_bio (body req)) photo ]
  /\ status (fst news) = 201
  /\ news_articles (snd news) =
     news_articles db ++
     [ mkNewsArticleRow (news_articles_next_id db) (params_clubId req)
                        (b_title (body req)) (b_author (body req))
                        (b_content (body req)) photo (req_time req) ].
Proof.
  intros Ha. unfold post_api_clubs_team, post_api_clubs_news.
  simpl. rewrite Ha. simpl. repeat split.
Qed.

(** *** Login *)

Lemma filter_none {A : Type} (f : A -> bool) (l : list A) :
  (forall x, In x l -> f x = false) -> filter f l = [].
Proof.
  induction l as [|y l IH]; simpl; intros H; [reflexivity|].
  rewrite (H y (or_introl eq_refl)). apply IH. intros x Hx. apply H. now right.
Qed.

Lemma filter_head {A : Type} (f : A -> bool) (l : list A) (x : A) (rest : list A) :
  filter f l = x :: rest -> In x l /\ f x = true.
Proof.
  intros H.
  assert (Hx : In x (filter f l)) by (rewrite H; now left).
  now apply filter_In in Hx.
Qed.

(** With unique emails, the query of the login handler finds the account
    and nothing else. *)
Lemma select_users_by_email_unique (db : Db) (account : UserRow) :
  NoDup (map u_email (users db)) ->
  In account (users db) ->
  Sql.select_users_by_email db (u_email account) = [ account ].
Proof.
  unfold Sql.select_users_by_email.
  induction (users db) as [|x us IH]; simpl; intros Hnd Hin; [contradiction|].
  inversion Hnd as [|e es Hnotin Hnd']; subst.
  destruct Hin as [->|Hin].
  - rewrite String.eqb_refl. f_equal.
    apply filter_none. intros y Hy.
    apply String.eqb_neq. intros E. apply Hnotin. rewrite <- E. now apply in_map.
  - assert (Hne : u_email x <> u_email account).
    { intros E. apply Hnotin. rewrite E. now apply in_map. }
    apply String.eqb_neq in Hne. rewrite Hne. now apply IH.
Qed.

(** The response of the login handler once the first account with the
    submitted email accepts the password. *)
Lemma login_success (req : Request) (db : Db) (account : UserRow) (rest : list UserRow) :
  Sql.select_users_by_email db (b_email (body req)) = account :: rest ->
  bcrypt_compare_await (b_password (body req)) (u_password_hash account)
  = Js.Returns true ->
  let role := if u_is_superadmin account then SUPERADMIN else ADMIN in
  let clubId :=
    match role with
    | ADMIN => match Sql.select_club_ids db (u_id account) with
               | club_id :: _ => club_id
               | [] => "*"
               end
    | SUPERADMIN => "*"
    end in
  let userPayload := mkAdminUser (u_id account) (u_email account) role clubId in
  post_api_login req db =
  Js.Returns
    (json (JsonLogin userPayload (jwt_sign userPayload JWT_SECRET (req_time req))),
     db).
Proof.
  intros Hsel Hpw. unfold post_api_login, login_handler. simpl.
  rewrite Hsel, Hpw. reflexivity.
Qed.

(** C2.  When the submitted email is that of a stored account (emails being
    unique in the store) and the password matches its hash, login answers 200
    with a token that [jwt.verify] decodes, under the server's secret, to an
    identity whose role is SUPERADMIN exactly when the account's
    is_superadmin flag is set, and ADMIN otherwise. *)
Theorem login_role_matches_flag (req : Request) (db : Db) (account : UserRow) :
  (forall p secret iat, jwt_verify (jwt_sign p secret iat) secret = Some p) ->
  NoDup (map u_email (users db)) ->
  In account (users db) ->
  b_email (body req) = u_email account ->
  bcrypt_compare_await (b_password (body req)) (u_password_hash account)
  = Js.Returns true ->
  exists identity token decoded,
    post_api_login req db
    = Js.Returns (mkResponse 200 (JsonLogin identity token), db)
    /\ jwt_verify token JWT_SECRET = Some decoded
    /\ decoded = identity
    /\ au_id decoded = u_id account
    /\ au_email decoded = u_email account
    /\ (au_role decoded = SUPERADMIN <-> u_is_superadmin account = true)
    /\ (au_role decoded = ADMIN <-> u_is_superadmin account = false).
Proof.
  intros Hjwt Hnd Hin Hemail Hpw.
  pose proof (select_users_by_email_unique db account Hnd Hin) as Hsel.
  rewrite <- Hemail in Hsel.
  pose proof (login_success req db account [] Hsel Hpw) as Hlogin.
  cbv zeta in Hlogin.
  eexists _, _, _. split; [exact Hlogin|].
  split; [apply Hjwt|]. split; [reflexivity|]. simpl.
  split; [reflexivity|]. split; [reflexivity|].
  destruct (u_is_superadmin account); split; split; congruence.
Qed.

(** With a password that is a string, a login with an email no account has
    and a login with the email of an account whose hash rejects the password
    get the same response: status 400 and the text "Invalid email or
    password."; neither changes the store. *)
Lemma login_failures_same_for_string_passwords (req1 req2 : Request) (db1 db2 : Db) :
  (forall u, In u (users db1) -> u_email u <> b_email (body req1)) ->
  (forall u, In u (users db2) -> u_email u = b_email (body req2) ->
             bcrypt_compare_await (b_password (body req2)) (u_password_hash u)
             = Js.Returns false) ->
  post_api_login req1 db1
  = Js.Returns (send 400 "Invalid email or password.", db1)
  /\ post_api_login req2 db2
     = Js.Returns (send 400 "Invalid email or password.", db2).
Proof.
  intros Hnone Hwrong. split.
  - unfold post_api_login, login_handler, Sql.select_users_by_email. simpl.
    rewrite filter_none; [reflexivity|].
    intros x Hx. apply String.eqb_neq. now apply Hnone.
  - unfold post_api_login, login_handler. simpl.
    destruct (Sql.select_users_by_email db2 (b_email (body req2))) as [|x xs] eqn:Hsel;
      [reflexivity|].
    apply filter_head in Hsel as [Hx Hex]. apply String.eqb_eq in Hex.
    now rewrite (Hwrong x Hx Hex).
Qed.

(** C3, where the code departs from it.  When the body of a login carries no
    password that is a string, a login with an email no account has is
    answered 400 "Invalid email or password.", but a login with the email of
    an account is not answered by the handler: [bcrypt.compare] throws and
    nothing catches the error.  The two failures are told apart, and with
    them whether the email has an account. *)
Theorem login_without_password_reveals_account (req : Request) (db : Db) :
  b_password (body req) = None ->
  ((forall u, In u (users db) -> u_email u <> b_email (body req)) ->
   post_api_login req db
   = Js.Returns (send 400 "Invalid email or password.", db))
  /\ ((exists u, In u (users db) /\ u_email u = b_email (body req)) ->
      post_api_login req db = Js.Throws "Illegal arguments").
Proof.
  intros Hpw. unfold post_api_login, login_handler. simpl. split.
  - intros Hnone. unfold Sql.select_users_by_email.
    rewrite filter_none; [reflexivity|].
    intros x Hx. apply String.eqb_neq. now apply Hnone.
  - intros [u [Hin Hemail]].
    destruct (Sql.select_users_by_email db (b_email (body req))) as [|x xs] eqn:Hsel.
    + apply String.eqb_eq in Hemail.
      assert (Hu : In u (Sql.select_users_by_email db (b_email (body req))))
        by (apply filter_In; now split).
      rewrite Hsel in Hu. contradiction.
    + now rewrite Hpw.
Qed.

(** C8.  After a successful login the club id of the token is the wildcard
    for a superadmin, the wildcard as well for an account that is not a
    superadmin and has no row in club_admins, and the club id of the first
    such row when there is one. *)
Theorem login_scope_defaults_to_wildcard (req : Request) (db : Db)
        (account : UserRow) (rest : list UserRow) :
  Sql.select_users_by_email db (b_email (body req)) = account :: rest ->
  bcrypt_compare_await (b_password (body req)) (u_password_hash account)
  = Js.Returns true ->
  exists identity,
    post_api_login req db =
    Js.Returns
      (mkResponse 200
         (JsonLogin identity (jwt_sign identity JWT_SECRET (req_time req))), db)
    /\ (u_is_superadmin account = true ->
        au_role identity = SUPERADMIN /\ au_clubId identity = "*")
    /\ (u_is_superadmin account = false ->
        (forall ca, In ca (club_admins db) -> ca_user_id ca <> u_id account) ->
        au_role identity = ADMIN /\ au_clubId identity = "*")
    /\ (u_is_superadmin account = false ->
        forall ca, In ca (club_admins db) -> ca_user_id ca = u_id account ->
        au_role identity = ADMIN
        /\ exists ca', In ca' (club_admins db) /\ ca_user_id ca' = u_id account
                      /\ au_clubId identity = ca_club_id ca').
Proof.
  intros Hsel Hpw.
  pose proof (login_success req db account rest Hsel Hpw) as Hlogin.
  cbv zeta in Hlogin.
  eexists. split; [exact Hlogin|]. simpl.
  split; [|split].
  - intros ->. now split.
  - intros -> Hnone. split; [reflexivity|].
    unfold Sql.select_club_ids. rewrite filter_none; [reflexivity|].
    intros ca Hca. apply Nat.eqb_neq. now apply Hnone.
  - intros -> ca Hca Hid. split; [reflexivity|].
    unfold Sql.select_club_ids.
    destruct (filter (fun ca0 => Nat.eqb (ca_user_id ca0) (u_id account)) (club_admins db))
      as [|ca' cas] eqn:Hf.
    + assert (Hin : In ca (filter (fun ca0 => Nat.eqb (ca_user_id ca0) (u_id account))
                                  (club_admins db))).
      { apply filter_In. split; [exact Hca|]. now apply Nat.eqb_eq. }
      rewrite Hf in Hin. contradiction.
    + apply filter_head in Hf as [Hin' Heq]. apply Nat.eqb_eq in Heq.
      exists ca'. simpl. auto.
Qed.

(** *** Bootstrap *)

Lemma superadmin_selected (db : Db) (u : UserRow) :
  In u (users db) -> u_is_superadmin u = true ->
  Nat.eqb (length (Sql.select_users_by_flag db true)) 0 = false.
Proof.
  intros Hin Hflag.
  assert (H : In u (Sql.select_users_by_flag db true)).
  { apply filter_In. split; [exact Hin|]. now rewrite Hflag. }
  destruct (Sql.select_users_by_flag db true); [contradiction | reflexivity].
Qed.

(** Whatever store [initializeDatabase] leaves, it holds a superadmin, and a
    later run leaves it as it is. *)
Lemma initializeDatabase_idempotent (salt salt' : string) (db db' : Db) :
  initializeDatabase salt db = Sql.Ok db' ->
  (exists u, In u (users db') /\ u_is_superadmin u = true)
  /\ initializeDatabase salt' db' = Sql.Ok db'.
Proof.
  intros H.
  assert (Hex : exists u, In u (users db') /\ u_is_superadmin u = true).
  { unfold initializeDatabase in H.
    destruct (Nat.eqb (length (Sql.select_users_by_flag db true)) 0) eqn:E.
    - unfold Sql.insert_user in H.
      destruct (Sql.select_users_by_email db _); [|discriminate].
      injection H as <-. eexists.
      split; [simpl; apply in_or_app; right; now left | reflexivity].
    - injection H as <-.
      destruct (Sql.select_users_by_flag db true) as [|u us] eqn:Hs; [discriminate|].
      apply filter_head in Hs as [Hin Hflag]. exists u. split; [exact Hin|].
      now destruct (u_is_superadmin u). }
  split; [exact Hex|].
  destruct Hex as [u [Hin Hflag]].
  unfold initializeDatabase. now rewrite (superadmin_selected db' u Hin Hflag).
Qed.

(** C6.  When the store holds an account with the is_superadmin flag set,
    [initializeDatabase] returns the store as it is: nothing is written, and
    running it again on the result changes nothing either. *)
Theorem initializeDatabase_no_write (salt : string) (db : Db) :
  (exists u, In u (users db) /\ u_is_superadmin u = true) ->
  initializeDatabase salt db = Sql.Ok db
  /\ Sql.select_users_by_flag db true <> []
  /\ forall salt',
       match initializeDatabase salt db with
       | Sql.Ok db' => initializeDatabase salt' db'
       | Sql.Err msg => Sql.Err msg
       end = initializeDatabase salt db.
Proof.
  intros [u [Hin Hflag]].
  pose proof (superadmin_selected db u Hin Hflag) as Hsel.
  assert (E : forall s, initializeDatabase s db = Sql.Ok db).
  { intros s. unfold initializeDatabase. now rewrite Hsel. }
  split; [apply E|]. split.
  - intros Hnil. now rewrite Hnil in Hsel.
  - intros salt'. now rewrite !E.
Qed.

(** *** Deleting an admin *)

(** A route answers from one of its middlewares and leaves the store alone,
    or it is its handler that runs. *)
Lemma run_route_cases (chain : list Middleware) (handler : Handler)
      (req : Request) (db : Db) :
  (exists res, run_route chain handler req db = (res, db))
  \/ (exists req', run_route chain handler req db = handler req' db).
Proof.
  revert req. induction chain as [|m chain IH]; intros req; simpl.
  - right. now exists req.
  - destruct (m req) as [res|req'].
    + left. now exists res.
    + apply IH.
Qed.

Lemma delete_admin_handler_keeps (req : Request) (db : Db) (account : UserRow) :
  In account (users db) -> u_is_superadmin account = true ->
  In account (users (snd (delete_admin_handler req db))).
Proof.
  intros Hin Hflag. simpl. apply filter_In. split; [exact Hin|].
  unfold delete_matches. rewrite Hflag. simpl. now rewrite andb_false_r.
Qed.

Lemma delete_admin_handler_removes (req : Request) (db : Db) (x : UserRow) :
  In x (users db) ->
  ~ In x (users (snd (delete_admin_handler req db))) ->
  u_is_superadmin x = false /\ sql_id_eq (u_id x) (params_adminId req) = true.
Proof.
  intros Hin Hgone. simpl in Hgone.
  destruct (delete_matches (params_adminId req) x) eqn:E.
  - unfold delete_matches in E. apply andb_true_iff in E as [Hid Hflag].
    split; [|exact Hid]. now destruct (u_is_superadmin x).
  - exfalso. apply Hgone. apply filter_In. split; [exact Hin|]. now rewrite E.
Qed.

(** C7.  Whatever the request to delete an admin (its token, the identity
    attached to it, the id it names), an account with the is_superadmin flag
    set is still in the users table afterwards; every account the operation
    takes out of the table has the flag unset. *)
Theorem delete_admin_keeps_superadmins (req : Request) (db : Db) (account : UserRow) :
  In account (users db) ->
  u_is_superadmin account = true ->
  In account (users (snd (delete_api_admins req db)))
  /\ (forall req', In account (users (snd (delete_admin_handler req' db))))
  /\ (forall x, In x (users db) ->
                ~ In x (users (snd (delete_api_admins req db))) ->
                u_is_superadmin x = false).
Proof.
  intros Hin Hflag.
  destruct (run_route_cases [ authMiddleware; superadminMiddleware ]
                            delete_admin_handler req db) as [[res E]|[req' E]];
    unfold delete_api_admins; rewrite E.
  - split; [exact Hin|]. split.
    + intros req'. now apply delete_admin_handler_keeps.
    + intros x Hx Hgone. contradiction.
  - split; [now apply delete_admin_handler_keeps|]. split.
    + intros req''. now apply delete_admin_handler_keeps.
    + intros x Hx Hgone.
      now apply (delete_admin_handler_removes req' db x Hx) in Hgone.
Qed.

Lemma filter_all {A : Type} (f : A -> bool) (l : list A) :
  (forall x, In x l -> f x = true) -> filter f l = l.
Proof.
  induction l as [|y l IH]; simpl; intros H; [reflexivity|].
  rewrite (H y (or_introl eq_refl)). f_equal. apply IH.
  intros x Hx. apply H. now right.
Qed.

(** C9.  For a superadmin's request the delete-admin route answers 204 with
    an empty body whatever the id names; when every account with that id is a
    superadmin (or there is none) the store is left exactly as it was, and
    the answer is the same 204. *)
Theorem delete_admin_always_204 (req : Request) (db : Db) (decoded : AdminUser) :
  authMiddleware req = Next (set_user req decoded) ->
  au_role decoded = SUPERADMIN ->
  fst (delete_api_admins req db) = mkResponse 204 (Send None)
  /\ ((forall x, In x (users db) ->
                 sql_id_eq (u_id x) (params_adminId req) = true ->
                 u_is_superadmin x = true) ->
      delete_api_admins req db = (mkResponse 204 (Send None), db)).
Proof.
  intros Ha Hr. unfold delete_api_admins.
  rewrite (superadmin_reaches_handler req db _ decoded Ha Hr).
  split; [reflexivity|].
  intros Hall. unfold delete_admin_handler. simpl.
  assert (Hnone : forall x, In x (users db) ->
                            delete_matches (params_adminId req) x = false).
  { intros x Hx. unfold delete_matches.
    destruct (sql_id_eq (u_id x) (params_adminId req)) eqn:E; [|reflexivity].
    now rewrite (Hall x Hx E). }
  rewrite (filter_none _ _ Hnone). simpl.
  rewrite !filter_all.
  - now destruct db.
  - reflexivity.
  - intros x Hx. now rewrite (Hnone x Hx).
Qed.

(** *** Public reads *)

Lemma insert_desc_perm {A : Type} (key : A -> nat) (x : A) (l : list A) :
  Permutation (Sql.insert_desc key x l) (x :: l).
Proof.
  induction l as [|y l IH]; simpl; [apply Permutation_refl|].
  destruct (Nat.ltb (key y) (key x)); [apply Permutation_refl|].
  apply Permutation_trans with (y :: x :: l).
  - now apply perm_skip.
  - apply perm_swap.
Qed.

Lemma order_by_desc_perm {A : Type} (key : A -> nat) (l : list A) :
  Permutation (Sql.order_by_desc key l) l.
Proof.
  induction l as [|x l IH]; simpl; [apply perm_nil|].
  apply Permutation_trans with (x :: Sql.order_by_desc key l).
  - apply insert_desc_perm.
  - now apply perm_skip.
Qed.

Lemma order_by_desc_In {A : Type} (key : A -> nat) (l : list A) (x : A) :
  In x (Sql.order_by_desc key l) <-> In x l.
Proof.
  split; apply Permutation_in;
    [|apply Permutation_sym]; apply order_by_desc_perm.
Qed.

(** The first row of [ORDER BY key DESC] has the largest key. *)
Lemma order_by_desc_head {A : Type} (key : A -> nat) (l : list A) :
  forall x rest, Sql.order_by_desc key l = x :: rest ->
                 forall y, In y l -> key y <= key x.
Proof.
  induction l as [|a l IH]; simpl; intros x rest H y Hy; [contradiction|].
  destruct (Sql.order_by_desc key l) as [|h r] eqn:E.
  - simpl in H. injection H as <- _.
    destruct Hy as [->|Hy]; [lia|].
    apply (order_by_desc_In key) in Hy. rewrite E in Hy. contradiction.
  - simpl in H. specialize (IH h r eq_refl).
    destruct (Nat.ltb (key h) (key a)) eqn:Hlt.
    + injection H as <- _. apply Nat.ltb_lt in Hlt.
      destruct Hy as [->|Hy]; [lia|]. specialize (IH y Hy). lia.
    + injection H as <- _. apply Nat.ltb_ge in Hlt.
      destruct Hy as [->|Hy]; [lia|]. now apply IH.
Qed.

(** C10.  The GET routes for a club's team, gallery, news and blog posts and
    for the application form have no middleware: whatever the request, so
    also one without authorization header, they answer 200 with the stored
    rows of the club of the path (all of them and no other) and leave the
    store as it is.  The application form route answers with the stored form
    whose updatedAt is largest, and 404 when no form is stored; it does not
    look at the club id.  None of them answers 401. *)
Theorem public_reads_need_no_token (req : Request) (db : Db) :
  (exists rows,
      get_api_clubs_team req db = (mkResponse 200 (JsonTeam rows), db)
      /\ forall m, In m rows <->
                   In m (team_members db) /\ tm_club_id m = params_clubId req)
  /\ (exists rows,
      get_api_clubs_gallery req db = (mkResponse 200 (JsonGallery rows), db)
      /\ forall e, In e rows <->
                   In e (gallery_events db) /\ ge_club_id e = params_clubId req)
  /\ (exists rows,
      get_api_clubs_news req db = (mkResponse 200 (JsonNews rows), db)
      /\ forall a, In a rows <->
                   In a (news_articles db) /\ na_club_id a = params_clubId req)
  /\ (exists rows,
      get_api_clubs_blogs req db = (mkResponse 200 (JsonBlogs rows), db)
      /\ forall p, In p rows <->
                   In p (blog_posts db) /\ bp_club_id p = params_clubId req)
  /\ (application_forms db = [] ->
      get_api_clubs_application req db =
      (send 404 "Application form not found.", db))
  /\ (application_forms db <> [] ->
      exists form,
        get_api_clubs_application req db = (mkResponse 200 (JsonForm form), db)
        /\ In form (application_forms db)
        /\ forall g, In g (application_forms db) ->
                     af_updatedAt g <= af_updatedAt form)
  /\ status (fst (get_api_clubs_team req db)) <> 401
  /\ status (fst (get_api_clubs_gallery req db)) <> 401
  /\ status (fst (get_api_clubs_news req db)) <> 401
  /\ status (fst (get_api_clubs_blogs req db)) <> 401
  /\ status (fst (get_api_clubs_application req db)) <> 401.
Proof.
  repeat match goal with |- _ /\ _ => split end;
    try (simpl; discriminate).
  - eexists. split; [reflexivity|].
    intros m. rewrite filter_In, String.eqb_eq. reflexivity.
  - eexists. split; [reflexivity|].
    intros e. rewrite filter_In, String.eqb_eq. reflexivity.
  - eexists. split; [reflexivity|].
    intros a. rewrite order_by_desc_In, filter_In, String.eqb_eq. reflexivity.
  - eexists. split; [reflexivity|].
    intros p. rewrite order_by_desc_In, filter_In, String.eqb_eq. reflexivity.
  - intros E. unfold get_api_clubs_application, get_application_handler.
    simpl. now rewrite E.
  - intros Hne. unfold get_api_clubs_application, get_application_handler. simpl.
    destruct (Sql.order_by_desc af_updatedAt (application_forms db))
      as [|form rest] eqn:E.
    + destruct (application_forms db) as [|f fs] eqn:Ef; [contradiction|].
      assert (Hin : In f (Sql.order_by_desc af_updatedAt (f :: fs)))
        by (apply order_by_desc_In; now left).
      rewrite E in Hin. contradiction.
    + exists form. simpl. split; [reflexivity|]. split.
      * apply (order_by_desc_In af_updatedAt). rewrite E. now left.
      * apply (order_by_desc_head af_updatedAt _ form rest E).
  - unfold get_api_clubs_application, get_application_handler. simpl.
    destruct (Sql.order_by_desc af_updatedAt (application_forms db));
      simpl; discriminate.
Qed.

(** *** More on the authorization header and on tokens *)

Lemma header_token_fields (scheme tok more : string) :
  Js.mentions " " scheme = false ->
  Js.mentions " " tok = false ->
  header_token (Some (scheme ++ " " ++ tok ++ " " ++ more)%string) = Some tok.
Proof.
  intros Hs Ht. unfold header_token.
  change (scheme ++ " " ++ tok ++ " " ++ more)%string
    with (scheme ++ String " " (tok ++ String " " more))%string.
  now rewrite (split_app _ _ _ Hs), (split_app _ _ _ Ht).
Qed.

Lemma authMiddleware_refuses_route (chain : list Middleware) (handler : Handler)
      (req : Request) (db : Db) (res : Response) :
  authMiddleware req = Respond res ->
  run_route (authMiddleware :: chain) handler req db = (res, db).
Proof. intros H. simpl. now rewrite H. Qed.

Lemma authMiddleware_bearer (req : Request) (token : string) (decoded : AdminUser) :
  authorization req = Some ("Bearer " ++ token)%string ->
  Js.mentions " " token = false -> token <> "" ->
  jwt_verify token JWT_SECRET = Some decoded ->
  authMiddleware req = Next (set_user req decoded).
Proof.
  intros Hh Hsp Hne Hv.
  rewrite (authMiddleware_token req token), Hv; auto.
  rewrite Hh. now apply (header_token_scheme "Bearer" token).
Qed.

(** Whatever login answers with a token, the token is the signature of the
    identity in the same answer, and the store is as before. *)
Lemma login_response_inv (req : Request) (db db' : Db) (code : nat)
      (identity : AdminUser) (token : string) :
  post_api_login req db
  = Js.Returns (mkResponse code (JsonLogin identity token), db') ->
  token = jwt_sign identity JWT_SECRET (req_time req)
  /\ db' = db
  /\ exists account rest,
       Sql.select_users_by_email db (b_email (body req)) = account :: rest
       /\ bcrypt_compare_await (b_password (body req)) (u_password_hash account)
          = Js.Returns true
       /\ au_id identity = u_id account
       /\ au_email identity = u_email account
       /\ au_role identity = (if u_is_superadmin account then SUPERADMIN else ADMIN)
       /\ au_clubId identity =
          (if u_is_superadmin account then "*"
           else match Sql.select_club_ids db (u_id account) with
                | club_id :: _ => club_id
                | [] => "*"
                end).
Proof.
  unfold post_api_login, login_handler. simpl.
  destruct (Sql.select_users_by_email db (b_email (body req))) as [|account rest];
    [discriminate|].
  destruct (bcrypt_compare_await (b_password (body req)) (u_password_hash account))
    as [[|]|error] eqn:Hpw; simpl; try discriminate.
  intros H. injection H as _ <- <- <-.
  split; [reflexivity|]. split; [reflexivity|].
  exists account, rest. simpl.
  repeat split; try assumption; now destruct (u_is_superadmin account).
Qed.

(** X1.  Of the authorization header only the part between the first and
    the second space is read.  The word before it is not compared with
    "Bearer", what follows a second space is dropped, and when that part is
    empty (two spaces in a row) the answer is 401 whatever comes after. *)
Theorem authMiddleware_reads_second_field (req : Request) (scheme tok more : string) :
  authorization req = Some (scheme ++ " " ++ tok ++ " " ++ more)%string ->
  Js.mentions " " scheme = false ->
  Js.mentions " " tok = false ->
  (tok = "" ->
   authMiddleware req = Respond (send 401 "Access denied. No token provided."))
  /\ (tok <> "" ->
      authMiddleware req =
      match jwt_verify tok JWT_SECRET with
      | Some decoded => Next (set_user req decoded)
      | None => Respond (send 400 "Invalid token.")
      end).
Proof.
  intros Hh Hs Ht.
  assert (E : header_token (authorization req) = Some tok)
    by (rewrite Hh; now apply header_token_fields).
  split.
  - intros ->. apply authMiddleware_no_token. now rewrite E.
  - intros Hne. now apply authMiddleware_token.
Qed.

(** X2.  Every route that writes to the store, and the list of admins, has
    [authMiddleware] first in its chain: when it refuses a request (no token,
    or a token that does not verify) its answer is the answer of the route
    and the store is left as it was. *)
Theorem refused_requests_write_nothing (req : Request) (db : Db) (res : Response)
        (salt clubId memberId : string) (answered_at : nat) :
  authMiddleware req = Respond res ->
  post_api_clubs_team req db = (res, db)
  /\ post_api_clubs_news req db = (res, db)
  /\ delete_api_team memberId req db = (res, db)
  /\ put_api_application answered_at req db = (res, db)
  /\ get_api_admins req db = (res, db)
  /\ delete_api_admins req db = (res, db)
  /\ post_api_admins salt clubId req db = Sql.Ok (Plain res, db).
Proof.
  intros H.
  repeat split;
    try (now apply authMiddleware_refuses_route).
  unfold post_api_admins. simpl. now rewrite H.
Qed.

(** X3.  A token that login returned is accepted by [authMiddleware] on a
    later request, which then carries exactly the identity login returned.
    The store is not consulted: the request passes against every later store,
    so also after the account was deleted. *)
Theorem login_token_is_accepted (login req : Request) (db db' : Db)
        (identity : AdminUser) (token : string) :
  (forall p secret iat, jwt_verify (jwt_sign p secret iat) secret = Some p) ->
  post_api_login login db
  = Js.Returns (mkResponse 200 (JsonLogin identity token), db') ->
  Js.mentions " " token = false -> token <> "" ->
  authorization req = Some ("Bearer " ++ token)%string ->
  authMiddleware req = Next (set_user req identity)
  /\ forall later : Db, status (fst (post_api_clubs_team req later)) = 201.
Proof.
  intros Hjwt Hlogin Hsp Hne Hh.
  apply login_response_inv in Hlogin as [-> _].
  assert (Ha : authMiddleware req = Next (set_user req identity))
    by (apply (authMiddleware_bearer req _ identity Hh Hsp Hne); apply Hjwt).
  split; [exact Ha|].
  intros later. unfold post_api_clubs_team. simpl. now rewrite Ha.
Qed.

(** X4.  When JWT_SECRET is not set in the environment, or set to the empty
    string, tokens are checked against the literal "your_default_secret": an
    identity signed with that text passes [authMiddleware], and with role
    SUPERADMIN it passes the superadmin gate and reaches the handler. *)
Theorem default_secret_tokens_accepted (req : Request) (identity : AdminUser)
        (iat : nat) :
  (forall p secret t, jwt_verify (jwt_sign p secret t) secret = Some p) ->
  env_JWT_SECRET env = None \/ env_JWT_SECRET env = Some "" ->
  let token := jwt_sign identity "your_default_secret" iat in
  Js.mentions " " token = false -> token <> "" ->
  authorization req = Some ("Bearer " ++ token)%string ->
  authMiddleware req = Next (set_user req identity)
  /\ (au_role identity = SUPERADMIN ->
      forall (handler : Handler) (db : Db),
        run_route [ authMiddleware; superadminMiddleware ] handler req db
        = handler (set_user req identity) db).
Proof.
  intros Hjwt Henv token Hsp Hne Hh.
  assert (Hsecret : JWT_SECRET = "your_default_secret")
    by (unfold JWT_SECRET; destruct Henv as [-> | ->]; reflexivity).
  assert (Ha : authMiddleware req = Next (set_user req identity)).
  { apply (authMiddleware_bearer req token identity Hh Hsp Hne).
    rewrite Hsecret. apply Hjwt. }
  split; [exact Ha|].
  intros Hr handler db. now apply superadmin_reaches_handler.
Qed.

(** *** Insertions into the users table *)

Lemma filter_nil_none {A : Type} (f : A -> bool) (l : list A) :
  filter f l = [] -> forall x, In x l -> f x = false.
Proof.
  intros H x Hx. destruct (f x) eqn:E; [|reflexivity].
  assert (Hin : In x (filter f l)) by (apply filter_In; now split).
  rewrite H in Hin. contradiction.
Qed.

Lemma insert_user_fresh (db : Db) (email hash : string) (flag : bool) :
  (forall u, In u (users db) -> u_email u <> email) ->
  Sql.insert_user db email hash flag
  = Sql.Ok (users_next_id db,
            set_users db (users db ++ [ mkUserRow (users_next_id db) email hash flag ])
                      (S (users_next_id db)) (club_admins db)).
Proof.
  intros H. unfold Sql.insert_user, Sql.select_users_by_email.
  rewrite filter_none; [reflexivity|].
  intros u Hu. apply String.eqb_neq. now apply H.
Qed.

Lemma insert_user_taken (db : Db) (email hash : string) (flag : bool) (u : UserRow) :
  In u (users db) -> u_email u = email ->
  Sql.insert_user db email hash flag = Sql.Err "ER_DUP_ENTRY".
Proof.
  intros Hu He. unfold Sql.insert_user.
  destruct (Sql.select_users_by_email db email) eqn:E; [|reflexivity].
  apply String.eqb_eq in He.
  now rewrite (filter_nil_none _ _ E u Hu) in He.
Qed.

(** What bootstrap writes when no account is a superadmin and the email it
    is configured with is free. *)
Lemma initializeDatabase_inserts (salt : string) (db : Db) :
  (forall u, In u (users db) -> u_is_superadmin u = false) ->
  (forall u, In u (users db) ->
             u_email u <> Js.or_else (env_SUPERADMIN_EMAIL env) "superadmin@example.com") ->
  initializeDatabase salt db
  = Sql.Ok (set_users db
              (users db ++
               [ mkUserRow (users_next_id db)
                   (Js.or_else (env_SUPERADMIN_EMAIL env) "superadmin@example.com")
                   (bcrypt_hash (Js.or_else (env_SUPERADMIN_PASSWORD env) "password123")
                                10 salt)
                   true ])
              (S (users_next_id db)) (club_admins db)).
Proof.
  intros Hnone Hfree. unfold initializeDatabase.
  assert (E : Sql.select_users_by_flag db true = []).
  { apply filter_none. intros u Hu. now rewrite (Hnone u Hu). }
  rewrite E. simpl. now rewrite (insert_user_fresh _ _ _ _ Hfree).
Qed.

(** X5.  On a store where no account is a superadmin and no account has the
    configured email (SUPERADMIN_EMAIL, or "superadmin@example.com" when that
    is unset or empty), bootstrap appends one account with that email, the
    hash of the configured password and the flag set; afterwards exactly one
    account is a superadmin, and the accounts there were are still there. *)
Theorem initializeDatabase_creates_one_superadmin (salt : string) (db : Db) :
  (forall u, In u (users db) -> u_is_superadmin u = false) ->
  (forall u, In u (users db) ->
             u_email u <> Js.or_else (env_SUPERADMIN_EMAIL env) "superadmin@example.com") ->
  exists db' created,
    initializeDatabase salt db = Sql.Ok db'
    /\ users db' = users db ++ [ created ]
    /\ club_admins db' = club_admins db
    /\ u_email created = Js.or_else (env_SUPERADMIN_EMAIL env) "superadmin@example.com"
    /\ u_password_hash created
       = bcrypt_hash (Js.or_else (env_SUPERADMIN_PASSWORD env) "password123") 10 salt
    /\ u_id created = users_next_id db
    /\ Sql.select_users_by_flag db' true = [ created ].
Proof.
  intros Hnone Hfree.
  eexists _, _. split; [now apply initializeDatabase_inserts|].
  simpl. repeat split.
  unfold Sql.select_users_by_flag. simpl. rewrite filter_app. simpl.
  rewrite filter_none; [reflexivity|].
  intros u Hu. now rewrite (Hnone u Hu).
Qed.

(** X6.  On a store where no account is a superadmin but an account already
    has the configured email, bootstrap fails on the duplicate email: no
    store comes out of it, and the server exits without a superadmin. *)
Theorem initializeDatabase_email_taken (salt : string) (db : Db) (u : UserRow) :
  (forall x, In x (users db) -> u_is_superadmin x = false) ->
  In u (users db) ->
  u_email u = Js.or_else (env_SUPERADMIN_EMAIL env) "superadmin@example.com" ->
  initializeDatabase salt db = Sql.Err "ER_DUP_ENTRY".
Proof.
  intros Hnone Hu He. unfold initializeDatabase.
  assert (E : Sql.select_users_by_flag db true = []).
  { apply filter_none. intros x Hx. now rewrite (Hnone x Hx). }
  rewrite E. simpl. now rewrite (insert_user_taken _ _ _ _ u Hu He).
Qed.

(** X7.  After bootstrap has created the superadmin, a login with the
    configured email and password is answered with the identity of the new
    account, role SUPERADMIN and club id "*". *)
Theorem bootstrap_then_login (salt : string) (db : Db) (login : Request) :
  (forall u, In u (users db) -> u_is_superadmin u = false) ->
  (forall u, In u (users db) ->
             u_email u <> Js.or_else (env_SUPERADMIN_EMAIL env) "superadmin@example.com") ->
  bcrypt_compare
    (Js.or_else (env_SUPERADMIN_PASSWORD env) "password123")
    (bcrypt_hash (Js.or_else (env_SUPERADMIN_PASSWORD env) "password123") 10 salt)
  = true ->
  b_email (body login) = Js.or_else (env_SUPERADMIN_EMAIL env) "superadmin@example.com" ->
  b_password (body login)
  = Some (Js.or_else (env_SUPERADMIN_PASSWORD env) "password123") ->
  exists db',
    initializeDatabase salt db = Sql.Ok db'
    /\ let identity := mkAdminUser (users_next_id db) (b_email (body login))
                                   SUPERADMIN "*" in
       post_api_login login db'
       = Js.Returns
           (json (JsonLogin identity (jwt_sign identity JWT_SECRET (req_time login))),
            db').
Proof.
  intros Hnone Hfree Hpw He Hp.
  eexists. split; [now apply initializeDatabase_inserts|].
  cbv zeta.
  match goal with |- post_api_login _ ?d = _ => set (db' := d) end.
  assert (Hsel : Sql.select_users_by_email db' (b_email (body login))
                 = [ mkUserRow (users_next_id db) (b_email (body login))
                       (bcrypt_hash
                          (Js.or_else (env_SUPERADMIN_PASSWORD env) "password123")
                          10 salt) true ]).
  { unfold Sql.select_users_by_email, db'. simpl. rewrite filter_app. simpl.
    rewrite <- He, String.eqb_refl.
    rewrite filter_none; [reflexivity|].
    intros u Hu. apply String.eqb_neq. rewrite He. now apply Hfree. }
  rewrite (login_success login db' _ [] Hsel); [reflexivity|].
  simpl. rewrite Hp. simpl. now rewrite Hpw.
Qed.

(** *** Creating an admin *)

(** What the create-admin handler writes when the email is free. *)
Lemma post_admins_handler_ok (salt clubId : string) (req : Request) (db : Db) :
  (forall u, In u (users db) -> u_email u <> b_email (body req)) ->
  post_admins_handler salt clubId req db
  = Sql.Ok
      (CreatedAdmin (mkAdminUser (users_next_id db) (b_email (body req)) ADMIN clubId),
       SqlWrite.insert_club_admin
         (set_users db
            (users db ++
             [ mkUserRow (users_next_id db) (b_email (body req))
                         (bcrypt_hash "password123" 10 salt) false ])
            (S (users_next_id db)) (club_admins db))
         (users_next_id db) clubId "ADMIN").
Proof.
  intros Hfree. unfold post_admins_handler.
  now rewrite (insert_user_fresh _ _ _ _ Hfree).
Qed.

Lemma superadmin_reaches_async_handler (req : Request) (db : Db)
      (handler : AsyncHandler) (decoded : AdminUser) :
  authMiddleware req = Next (set_user req decoded) ->
  au_role decoded = SUPERADMIN ->
  run_route_async [ authMiddleware; superadminMiddleware ] handler req db
  = handler (set_user req decoded) db.
Proof.
  intros Ha Hr. simpl. rewrite Ha.
  now rewrite (superadminMiddleware_passes (set_user req decoded) decoded eq_refl Hr).
Qed.

(** X9.  A superadmin creates an admin for a club under an email no account
    has; the answer is the new identity, and a login with that email and the
    password "password123" is then answered with the same identity: role
    ADMIN, scoped to the club given at creation. *)
Theorem create_admin_then_login (salt clubId : string) (req login : Request)
        (db : Db) (decoded : AdminUser) :
  users_wf db ->
  authMiddleware req = Next (set_user req decoded) ->
  au_role decoded = SUPERADMIN ->
  (forall u, In u (users db) -> u_email u <> b_email (body req)) ->
  bcrypt_compare "password123" (bcrypt_hash "password123" 10 salt) = true ->
  b_email (body login) = b_email (body req) ->
  b_password (body login) = Some "password123" ->
  let identity := mkAdminUser (users_next_id db) (b_email (body req)) ADMIN clubId in
  exists db',
    post_api_admins salt clubId req db = Sql.Ok (CreatedAdmin identity, db')
    /\ post_api_login login db'
       = Js.Returns
           (json (JsonLogin identity (jwt_sign identity JWT_SECRET (req_time login))),
            db').
Proof.
  intros [_ [_ [Hlt Hfk]]] Ha Hr Hfree Hpw He Hp identity.
  eexists. split.
  - unfold post_api_admins.
    rewrite (superadmin_reaches_async_handler req db _ decoded Ha Hr).
    now apply post_admins_handler_ok.
  - match goal with |- post_api_login _ ?d = _ => set (db' := d) end.
    assert (Hsel : Sql.select_users_by_email db' (b_email (body login))
                   = [ mkUserRow (users_next_id db) (b_email (body req))
                                 (bcrypt_hash "password123" 10 salt) false ]).
    { unfold Sql.select_users_by_email, db'. simpl. rewrite filter_app. simpl.
      rewrite He, String.eqb_refl.
      rewrite filter_none; [reflexivity|].
      intros u Hu. apply String.eqb_neq. now apply Hfree. }
    assert (Hclub : Sql.select_club_ids db' (users_next_id db) = [ clubId ]).
    { unfold Sql.select_club_ids, db'. simpl. rewrite filter_app. simpl.
      rewrite Nat.eqb_refl.
      rewrite filter_none; [reflexivity|].
      intros ca Hca. apply Nat.eqb_neq.
      destruct (Hfk ca Hca) as [u [Hu Hid]]. specialize (Hlt u Hu). lia. }
    rewrite (login_success login db' _ [] Hsel).
    + simpl. rewrite Hclub. reflexivity.
    + simpl. rewrite Hp. simpl. now rewrite Hpw.
Qed.

(** X10.  Creating an admin under an email an account already has is refused
    by the store on the first insertion: the handler's promise is rejected,
    there is no answer from the handler and nothing has been written. *)
Theorem create_admin_email_taken (salt clubId : string) (req : Request) (db : Db)
        (decoded : AdminUser) (u : UserRow) :
  authMiddleware req = Next (set_user req decoded) ->
  au_role decoded = SUPERADMIN ->
  In u (users db) -> u_email u = b_email (body req) ->
  post_api_admins salt clubId req db = Sql.Err "ER_DUP_ENTRY".
Proof.
  intros Ha Hr Hu He. unfold post_api_admins.
  rewrite (superadmin_reaches_async_handler req db _ decoded Ha Hr).
  unfold post_admins_handler. simpl.
  now rewrite (insert_user_taken _ _ _ _ u Hu He).
Qed.

(** X11.  A request to create an admin whose token does not carry the role
    SUPERADMIN is answered 403 and writes nothing. *)
Theorem create_admin_needs_superadmin (salt clubId : string) (req : Request)
        (db : Db) (decoded : AdminUser) :
  authMiddleware req = Next (set_user req decoded) ->
  au_role decoded <> SUPERADMIN ->
  post_api_admins salt clubId req db
  = Sql.Ok (Plain (send 403 "Forbidden. Superadmin access required."), db).
Proof.
  intros Ha Hr. unfold post_api_admins. simpl. rewrite Ha.
  rewrite superadminMiddleware_forbids; [reflexivity|].
  simpl. congruence.
Qed.

(** *** More on deleting an admin *)

(** X12.  Once a superadmin has deleted a regular admin, a login with the
    email of that admin is answered 400, whatever the password. *)
Theorem delete_admin_then_login (req login : Request) (db : Db)
        (decoded : AdminUser) (account : UserRow) :
  NoDup (map u_email (users db)) ->
  authMiddleware req = Next (set_user req decoded) ->
  au_role decoded = SUPERADMIN ->
  In account (users db) ->
  u_is_superadmin account = false ->
  sql_id_eq (u_id account) (params_adminId req) = true ->
  b_email (body login) = u_email account ->
  let db' := snd (delete_api_admins req db) in
  ~ In account (users db')
  /\ post_api_login login db'
     = Js.Returns (send 400 "Invalid email or password.", db').
Proof.
  intros Hnd Ha Hr Hin Hflag Hid He db'.
  assert (Hdb : db' = snd (delete_admin_handler (set_user req decoded) db)).
  { unfold db', delete_api_admins.
    now rewrite (superadmin_reaches_handler req db _ decoded Ha Hr). }
  assert (Hm : delete_matches (params_adminId req) account = true).
  { unfold delete_matches. now rewrite Hid, Hflag. }
  assert (Hkept : forall u, In u (users db') -> In u (users db) /\ u <> account).
  { intros u Hu. rewrite Hdb in Hu. simpl in Hu.
    apply filter_In in Hu as [Hu Hk]. split; [exact Hu|].
    intros ->. now rewrite Hm in Hk. }
  split.
  - intros Hu. now apply Hkept in Hu as [_ Hne].
  - unfold post_api_login, login_handler, Sql.select_users_by_email. simpl.
    rewrite filter_none; [reflexivity|].
    intros u Hu. apply Hkept in Hu as [Hu Hne].
    apply String.eqb_neq. rewrite He. intros Heq. apply Hne.
    pose proof (select_users_by_email_unique db account Hnd Hin) as Hsel.
    assert (Hinu : In u (Sql.select_users_by_email db (u_email account))).
    { apply filter_In. split; [exact Hu|]. now apply String.eqb_eq. }
    rewrite Hsel in Hinu. destruct Hinu as [<-|[]]. reflexivity.
Qed.

(** X13.  The deletion of an admin takes along exactly the club_admins rows
    of the accounts it removes: a row stays if and only if every account it
    refers to stays.  The tables of club content are not touched. *)
Theorem delete_admin_cascade (req : Request) (db : Db) :
  let db' := snd (delete_admin_handler req db) in
  (forall ca, In ca (club_admins db') <->
              In ca (club_admins db)
              /\ forall u, In u (users db) -> u_id u = ca_user_id ca ->
                           In u (users db'))
  /\ team_members db' = team_members db
  /\ news_articles db' = news_articles db
  /\ blog_posts db' = blog_posts db
  /\ gallery_events db' = gallery_events db
  /\ application_forms db' = application_forms db.
Proof.
  simpl. split; [|repeat split].
  intros ca. rewrite filter_In, negb_true_iff.
  split; intros [Hca H]; (split; [exact Hca|]).
  - intros u Hu Hid. apply filter_In. split; [exact Hu|].
    destruct (delete_matches (params_adminId req) u) eqn:Em; [|reflexivity].
    exfalso.
    assert (Hex : existsb (fun x => Nat.eqb (u_id x) (ca_user_id ca))
                          (filter (delete_matches (params_adminId req)) (users db))
                  = true).
    { apply existsb_exists. exists u. split.
      - apply filter_In. now split.
      - now apply Nat.eqb_eq. }
    congruence.
  - destruct (existsb _ _) eqn:Ex; [|reflexivity].
    apply existsb_exists in Ex as [u [Hu Hid]].
    apply filter_In in Hu as [Hu Hm]. apply Nat.eqb_eq in Hid.
    specialize (H u Hu Hid). apply filter_In in H as [_ Hk].
    now rewrite Hm in Hk.
Qed.

Lemma filter_filter_same {A : Type} (f : A -> bool) (l : list A) :
  filter f (filter f l) = filter f l.
Proof.
  apply filter_all. intros x Hx. now apply filter_In in Hx as [_ Hx].
Qed.

(** X14.  Deleting an admin a second time with the same request changes
    nothing: the store after two deletions is the store after one, and the
    answer is 204 both times. *)
Theorem delete_admin_twice (req : Request) (db : Db) :
  delete_admin_handler req (snd (delete_admin_handler req db))
  = (mkResponse 204 (Send None), snd (delete_admin_handler req db))
  /\ fst (delete_admin_handler req db) = mkResponse 204 (Send None).
Proof.
  split; [|reflexivity].
  unfold delete_admin_handler. simpl. f_equal. unfold set_users. simpl.
  rewrite filter_filter_same.
  assert (E : filter (delete_matches (params_adminId req))
                     (filter (fun u => negb (delete_matches (params_adminId req) u))
                             (users db)) = []).
  { apply filter_none. intros u Hu. apply filter_In in Hu as [_ Hu].
    now apply negb_true_iff in Hu. }
  rewrite E. simpl. f_equal.
  apply filter_all. reflexivity.
Qed.

(** *** The list of admins *)

Lemma left_join_row (db : Db) (u : UserRow) :
  In u (users db) ->
  match Sql.select_club_ids db (u_id u) with
  | [] => In (u, None) (users_left_join_club_admins db)
  | club_id :: _ => In (u, Some club_id) (users_left_join_club_admins db)
  end.
Proof.
  intros Hu. unfold users_left_join_club_admins.
  destruct (Sql.select_club_ids db (u_id u)) as [|c cs] eqn:E;
    apply in_flat_map; exists u; (split; [exact Hu|]); rewrite E; now left.
Qed.

Lemma left_join_row_inv (db : Db) (u : UserRow) (club : option string) :
  In (u, club) (users_left_join_club_admins db) ->
  In u (users db)
  /\ match club with
     | None => Sql.select_club_ids db (u_id u) = []
     | Some c => In c (Sql.select_club_ids db (u_id u))
     end.
Proof.
  unfold users_left_join_club_admins. intros H.
  apply in_flat_map in H as [x [Hx H]].
  destruct (Sql.select_club_ids db (u_id x)) as [|c cs] eqn:E.
  - destruct H as [H|[]]. injection H as <- <-. now split.
  - apply in_map_iff in H as [c' [H Hc']]. injection H as <- <-.
    split; [exact Hx|]. now rewrite E.
Qed.

Lemma flat_map_singletons {A B : Type} (f : A -> list B) (l : list A) :
  (forall x, In x l -> length (f x) = 1) ->
  length (flat_map f l) = length l.
Proof.
  induction l as [|x l IH]; simpl; intros H; [reflexivity|].
  rewrite length_app, (H x (or_introl eq_refl)), IH; [reflexivity|].
  intros y Hy. apply H. now right.
Qed.

(** X15.  The list of admins a superadmin gets shows every account at least
    once, with its id, its email and the role its is_superadmin flag gives;
    every entry comes from an account, and its club id is "*" or a club id of
    that account in club_admins.  When no account has more than one row in
    club_admins the list has one entry per account. *)
Theorem admin_list_shows_accounts (req : Request) (db : Db) (decoded : AdminUser) :
  authMiddleware req = Next (set_user req decoded) ->
  au_role decoded = SUPERADMIN ->
  exists rows,
    get_api_admins req db = (mkResponse 200 (JsonAdmins rows), db)
    /\ (forall u, In u (users db) ->
          exists a, In a rows /\ au_id a = u_id u /\ au_email a = u_email u
                    /\ au_role a = (if u_is_superadmin u then SUPERADMIN else ADMIN))
    /\ (forall a, In a rows ->
          exists u, In u (users db) /\ au_id a = u_id u /\ au_email a = u_email u
                    /\ au_role a = (if u_is_superadmin u then SUPERADMIN else ADMIN)
                    /\ (au_clubId a = "*"
                        \/ In (au_clubId a) (Sql.select_club_ids db (u_id u))))
    /\ ((forall u, In u (users db) ->
                   length (Sql.select_club_ids db (u_id u)) <= 1) ->
        length rows = length (users db)).
Proof.
  intros Ha Hr. unfold get_api_admins.
  rewrite (superadmin_reaches_handler req db _ decoded Ha Hr).
  unfold get_admins_handler, json.
  eexists. split; [reflexivity|]. split; [|split].
  - intros u Hu. pose proof (left_join_row db u Hu) as Hrow.
    destruct (Sql.select_club_ids db (u_id u)) as [|c cs];
      eexists; (split; [apply in_map_iff; eexists; split; [reflexivity|exact Hrow]|]);
      simpl; auto.
  - intros a Hin. apply in_map_iff in Hin as [[u club] [<- Hin]].
    apply left_join_row_inv in Hin as [Hu Hclub].
    exists u. simpl. repeat split; try assumption.
    destruct club as [c|]; simpl; [|now left].
    destruct (String.eqb c ""); [now left | now right].
  - intros Hone. rewrite length_map. unfold users_left_join_club_admins.
    apply flat_map_singletons. intros u Hu. specialize (Hone u Hu).
    destruct (Sql.select_club_ids db (u_id u)) as [|c [|c' cs]];
      simpl in *; [reflexivity | reflexivity | lia].
Qed.

(** X16.  The identity login issues for an account is an entry of the list
    of admins on the same store, provided its club id is not the empty string
    and, for a superadmin, the account has no row in club_admins. *)
Theorem admin_list_has_login_identity (login req : Request) (db db' : Db)
        (decoded identity : AdminUser) (token : string) :
  post_api_login login db
  = Js.Returns (mkResponse 200 (JsonLogin identity token), db') ->
  au_clubId identity <> "" ->
  (au_role identity = SUPERADMIN -> Sql.select_club_ids db (au_id identity) = []) ->
  authMiddleware req = Next (set_user req decoded) ->
  au_role decoded = SUPERADMIN ->
  exists rows,
    get_api_admins req db = (mkResponse 200 (JsonAdmins rows), db)
    /\ In identity rows.
Proof.
  intros Hlogin Hne Hsuper Ha Hr.
  apply login_response_inv in Hlogin
    as [_ [_ [account [rest [Hsel [_ [Hid [Hemail [Hrole Hclub]]]]]]]]].
  apply filter_head in Hsel as [Hu _].
  unfold get_api_admins.
  rewrite (superadmin_reaches_handler req db _ decoded Ha Hr).
  unfold get_admins_handler, json.
  eexists. split; [reflexivity|].
  pose proof (left_join_row db account Hu) as Hrow.
  destruct identity as [id email role club]. simpl in *. subst id email role.
  destruct (u_is_superadmin account) eqn:Hflag.
  - rewrite (Hsuper eq_refl) in Hrow. subst club.
    apply in_map_iff. exists (account, None). split; [|exact Hrow].
    simpl. now rewrite Hflag.
  - destruct (Sql.select_club_ids db (u_id account)) as [|c cs]; subst club.
    + apply in_map_iff. exists (account, None). split; [|exact Hrow].
      simpl. now rewrite Hflag.
    + apply in_map_iff. exists (account, Some c). split; [|exact Hrow].
      simpl. rewrite Hflag. apply String.eqb_neq in Hne. now rewrite Hne.
Qed.

(** *** Club content *)

Lemma order_by_desc_sorted {A : Type} (key : A -> nat) (l : list A) :
  StronglySorted (fun a b => key b <= key a) (Sql.order_by_desc key l).
Proof.
  induction l as [|x l IH]; simpl; [constructor|].
  induction IH as [|y rest Hrest IHrest Hall]; simpl.
  - repeat constructor.
  - destruct (Nat.ltb (key y) (key x)) eqn:Hlt.
    + apply Nat.ltb_lt in Hlt.
      constructor; [now constructor|].
      constructor; [lia|].
      rewrite Forall_forall in *. intros z Hz. specialize (Hall z Hz). lia.
    + apply Nat.ltb_ge in Hlt.
      constructor; [exact IHrest|].
      rewrite Forall_forall in *. intros z Hz.
      apply (Permutation_in _ (insert_desc_perm key x rest)) in Hz.
      destruct Hz as [<-|Hz]; [exact Hlt | now apply Hall].
Qed.

(** X17.  A member posted to a club's team shows up at the end of that
    club's team list, and the team list of every other club is what it was
    before. *)
Theorem post_team_then_get_team (req reader : Request) (db : Db) (decoded : AdminUser) :
  authMiddleware req = Next (set_user req decoded) ->
  let db' := snd (post_api_clubs_team req db) in
  let member :=
    mkTeamMemberRow (team_members_next_id db) (params_clubId req)
                    (b_name (body req)) (b_role (body req))
                    (b_grade (body req)) (b_bio (body req))
                    (option_map (fun f => ("/uploads/" ++ filename f)%string)
                                (upload req)) in
  (params_clubId reader = params_clubId req ->
   exists rows,
     get_api_clubs_team reader db = (mkResponse 200 (JsonTeam rows), db)
     /\ get_api_clubs_team reader db'
        = (mkResponse 200 (JsonTeam (rows ++ [ member ])), db'))
  /\ (params_clubId reader <> params_clubId req ->
      fst (get_api_clubs_team reader db') = fst (get_api_clubs_team reader db)).
Proof.
  intros Ha db' member.
  assert (Hdb : team_members db' = team_members db ++ [ member ]).
  { unfold db', post_api_clubs_team. simpl. rewrite Ha. reflexivity. }
  unfold get_api_clubs_team, get_team_handler, json. simpl.
  rewrite Hdb, filter_app. simpl. split.
  - intros ->. rewrite String.eqb_refl. eexists. split; reflexivity.
  - intros Hne. apply not_eq_sym in Hne. apply String.eqb_neq in Hne.
    rewrite Hne. now rewrite app_nil_r.
Qed.

(** X18.  When the ids of the stored articles lie below the counter, the
    answer to a posted article is the stored row, with the club id of the
    path and the time of the request; the article is in the news of that club
    afterwards, and the news of every other club is what it was. *)
Theorem post_news_then_get_news (req reader : Request) (db : Db) (decoded : AdminUser) :
  authMiddleware req = Next (set_user req decoded) ->
  (forall a, In a (news_articles db) -> na_id a < news_articles_next_id db) ->
  let article :=
    mkNewsArticleRow (news_articles_next_id db) (params_clubId req)
                     (b_title (body req)) (b_author (body req))
                     (b_content (body req))
                     (option_map (fun f => ("/uploads/" ++ filename f)%string)
                                 (upload req))
                     (req_time req) in
  exists db',
    post_api_clubs_news req db
    = (mkResponse 201 (JsonNewsCreated (Some article)), db')
    /\ (params_clubId reader = params_clubId req ->
        exists rows,
          get_api_clubs_news reader db' = (mkResponse 200 (JsonNews rows), db')
          /\ In article rows)
    /\ (params_clubId reader <> params_clubId req ->
        fst (get_api_clubs_news reader db') = fst (get_api_clubs_news reader db)).
Proof.
  intros Ha Hfresh article.
  eexists. split; [|split].
  - unfold post_api_clubs_news. simpl. rewrite Ha. simpl.
    unfold post_news_handler. simpl. rewrite filter_app. simpl.
    rewrite Nat.eqb_refl, filter_none; [reflexivity|].
    intros a Hin. apply Nat.eqb_neq. specialize (Hfresh a Hin). lia.
  - intros He. unfold get_api_clubs_news, get_news_handler, json. simpl.
    eexists. split; [reflexivity|].
    apply order_by_desc_In, filter_In. split.
    + apply in_or_app. right. now left.
    + simpl. apply String.eqb_eq. now symmetry.
  - intros Hne. unfold get_api_clubs_news, get_news_handler, json. simpl.
    rewrite filter_app. simpl.
    apply not_eq_sym in Hne. apply String.eqb_neq in Hne.
    rewrite Hne. now rewrite app_nil_r.
Qed.

(** X19.  The news and the blog posts of a club come newest first: in the
    answer every row is at least as recent as all rows after it. *)
Theorem news_and_blogs_newest_first (req : Request) (db : Db) :
  (exists rows,
      get_api_clubs_news req db = (mkResponse 200 (JsonNews rows), db)
      /\ StronglySorted (fun a b => na_created_at b <= na_created_at a) rows)
  /\ (exists rows,
      get_api_clubs_blogs req db = (mkResponse 200 (JsonBlogs rows), db)
      /\ StronglySorted (fun a b => bp_created_at b <= bp_created_at a) rows).
Proof.
  split; eexists; (split; [reflexivity|]); apply order_by_desc_sorted.
Qed.

Lemma order_by_desc_latest {A : Type} (key : A -> nat) (l : list A) (x : A) :
  (forall y, In y l -> key y < key x) ->
  exists rest, Sql.order_by_desc key (l ++ [ x ]) = x :: rest.
Proof.
  intros Hlt.
  destruct (Sql.order_by_desc key (l ++ [ x ])) as [|h rest] eqn:E.
  - assert (Hin : In x (Sql.order_by_desc key (l ++ [ x ])))
      by (apply order_by_desc_In, in_or_app; right; now left).
    rewrite E in Hin. contradiction.
  - exists rest. f_equal.
    assert (Hh : In h (l ++ [ x ]))
      by (apply (order_by_desc_In key); rewrite E; now left).
    apply in_app_or in Hh as [Hh|[Hh|[]]]; [|now symmetry].
    exfalso.
    assert (Hx : key x <= key h).
    { apply (order_by_desc_head key _ h rest E). apply in_or_app. right. now left. }
    specialize (Hlt h Hh). lia.
Qed.

(** X20.  An authenticated request uploads an application form, and the
    row is stored with a time later than that of every stored form: the
    answer carries the url and the file name of the upload with the time read
    after the insertion, and the application route afterwards answers, for
    every club id, with the stored row: the same url and file name, with the
    time read before the insertion.  A request without a file is answered
    400 and the store is left as it was. *)
Theorem put_application_then_get (answered_at : nat) (req reader : Request)
        (db : Db) (decoded : AdminUser) :
  authMiddleware req = Next (set_user req decoded) ->
  (forall f, upload req = Some f ->
     (forall g, In g (application_forms db) -> af_updatedAt g < req_time req) ->
     let url := ("/uploads/" ++ filename f)%string in
     exists db',
       put_api_application answered_at req db
       = (mkResponse 200
            (JsonForm (mkApplicationFormRow url (originalname f) answered_at)),
          db')
       /\ get_api_clubs_application reader db'
          = (mkResponse 200
               (JsonForm (mkApplicationFormRow url (originalname f) (req_time req))),
             db'))
  /\ (upload req = None ->
      put_api_application answered_at req db = (send 400 "No file uploaded.", db)).
Proof.
  intros Ha.
  assert (E : put_api_application answered_at req db
              = put_application_handler answered_at
                  (set_file (set_user req decoded) (upload req)) db).
  { unfold put_api_application. simpl. now rewrite Ha. }
  rewrite E. split.
  - intros f Hf Hlater url.
    destruct (order_by_desc_latest af_updatedAt (application_forms db)
                (mkApplicationFormRow url (originalname f) (req_time req)) Hlater)
      as [rest Hrest].
    subst url. unfold put_application_handler. simpl in *. rewrite Hf.
    eexists. split; [reflexivity|].
    unfold get_api_clubs_application, get_application_handler. simpl.
    rewrite Hrest. reflexivity.
  - intros Hf. unfold put_application_handler. simpl. now rewrite Hf.
Qed.

(** X21.  Deleting a team member asks for a valid token and nothing more:
    whatever role and club id the token carries, the answer is 204 and the
    rows of team_members whose id the store matches with the parameter are
    gone, from whichever club; all other rows stay. *)
Theorem delete_team_member_any_club (memberId : string) (req : Request) (db : Db)
        (decoded : AdminUser) :
  authMiddleware req = Next (set_user req decoded) ->
  exists db',
    delete_api_team memberId req db = (mkResponse 204 (Send None), db')
    /\ (forall m, In m (team_members db') <->
                  In m (team_members db) /\ sql_id_eq (tm_id m) memberId = false)
    /\ users db' = users db /\ club_admins db' = club_admins db.
Proof.
  intros Ha. unfold delete_api_team. simpl. rewrite Ha.
  eexists. split; [reflexivity|]. simpl. split; [|now split].
  intros m. now rewrite filter_In, negb_true_iff.
Qed.

End Server.

(** ** The reference instance meets what is assumed of the libraries *)

Lemma append_assoc (a b c : string) : ((a ++ b) ++ c = a ++ (b ++ c))%string.
Proof.
  induction a as [|x a IH]; simpl; [reflexivity | now rewrite IH].
Qed.

Lemma append_empty_r (a : string) : (a ++ "" = a)%string.
Proof.
  induction a as [|x a IH]; simpl; [reflexivity | now rewrite IH].
Qed.

Lemma read_unary_unary (n : nat) (rest : string) :
  Reference.read_unary (Reference.unary n ++ String "." rest)
  = (n, String "." rest).
Proof.
  induction n as [|n IH]; simpl; [reflexivity | now rewrite IH].
Qed.

Lemma take_append (a b : string) : Reference.take (String.length a) (a ++ b) = a.
Proof.
  induction a as [|x a IH]; simpl; [now destruct b | now rewrite IH].
Qed.

Lemma drop_append (a b : string) : Reference.drop (String.length a) (a ++ b) = b.
Proof.
  induction a as [|x a IH]; simpl; [now destruct b | exact IH].
Qed.

Lemma read_field_field (f rest : string) :
  Reference.read_field (Reference.field f ++ rest) = Some (f, rest).
Proof.
  unfold Reference.read_field, Reference.field.
  rewrite append_assoc.
  change ("." ++ f)%string with (String "." f).
  change (String "." f ++ rest)%string with (String "." (f ++ rest)).
  rewrite read_unary_unary, take_append, drop_append. reflexivity.
Qed.

Lemma read_role_tag_role_tag (r : AdminRole) :
  Reference.read_role_tag (Reference.role_tag r) = Some r.
Proof. now destruct r. Qed.

(** What [jwt.sign] issued under a secret, [jwt.verify] decodes under it. *)
Lemma reference_jwt_verify_sign (p : AdminUser) (secret : string) (iat : nat) :
  Reference.jwt_verify (Reference.jwt_sign p secret iat) secret = Some p.
Proof.
  unfold Reference.jwt_verify, Reference.jwt_sign.
  rewrite read_field_field, String.eqb_refl, read_role_tag_role_tag.
  change ("." ++ Reference.field (au_email p) ++ Reference.field (au_clubId p))%string
    with (String "." (Reference.field (au_email p) ++ Reference.field (au_clubId p))).
  rewrite read_unary_unary, read_field_field.
  rewrite <- (append_empty_r (Reference.field (au_clubId p))).
  rewrite read_field_field. now destruct p.
Qed.

(** A token signed under another secret is refused. *)
Lemma reference_jwt_verify_other_secret (p : AdminUser) (s1 s2 : string) (iat : nat) :
  s1 <> s2 ->
  Reference.jwt_verify (Reference.jwt_sign p s1 iat) s2 = None.
Proof.
  intros H. unfold Reference.jwt_verify, Reference.jwt_sign.
  rewrite read_field_field. apply String.eqb_neq in H. now rewrite H.
Qed.

(** ** The theorems on the sample store *)

(** The token the reference instance issues for admin a@x.com is the one
    login returns, and it carries role ADMIN and club id "A". *)
Lemma sample_login_admin_a :
  post_api_login Reference.env Reference.bcrypt_compare Reference.jwt_sign
                 (Sample.request None "" "" (Sample.credentials "a@x.com" "secret"))
                 Sample.db
  = Js.Returns
      (json (JsonLogin Sample.admin_a_identity Sample.admin_a_token), Sample.db).
Proof. reflexivity. Qed.

Lemma sample_emails_unique : NoDup (map u_email (users Sample.db)).
Proof.
  simpl. repeat constructor; simpl; intuition discriminate.
Qed.

(** C1 as stated does not hold: admin a@x.com, whose token carries club id
    "A", posts a team member and a news article under club "B"; both requests
    are answered 201 and the rows are stored under "B". *)
Lemma tenant_scope_check_counterexample :
  let req := Sample.request (Sample.bearer Sample.admin_a_token) "B" ""
                            Sample.member_fields in
  let team := post_api_clubs_team Reference.env Reference.jwt_verify req Sample.db in
  let news := post_api_clubs_news Reference.env Reference.jwt_verify req Sample.db in
  authMiddleware Reference.env Reference.jwt_verify req
  = Next (set_user req Sample.admin_a_identity)
  /\ au_role Sample.admin_a_identity = ADMIN
  /\ au_clubId Sample.admin_a_identity = "A"
  /\ params_clubId req = "B"
  /\ "A" <> "B"
  /\ status (fst team) = 201
  /\ In (mkTeamMemberRow 3 "B" "Sunil" "Member" "10" "" None)
        (team_members (snd team))
  /\ status (fst news) = 201
  /\ In (mkNewsArticleRow 4 "B" "Match report" "Sunil" "We won." None 0)
        (news_articles (snd news)).
Proof.
  vm_compute.
  repeat match goal with |- _ /\ _ => split end;
    try reflexivity; try discriminate; tauto.
Qed.

Lemma tenant_writes_ignore_scope_witness :
  let req := Sample.request (Sample.bearer Sample.admin_a_token) "B" ""
                            Sample.member_fields in
  authMiddleware Reference.env Reference.jwt_verify req
  = Next (set_user req Sample.admin_a_identity)
  /\ status (fst (post_api_clubs_team Reference.env Reference.jwt_verify req
                                      Sample.db)) = 201
  /\ status (fst (post_api_clubs_news Reference.env Reference.jwt_verify req
                                      Sample.db)) = 201.
Proof.
  intros req.
  assert (Ha : authMiddleware Reference.env Reference.jwt_verify req
               = Next (set_user req Sample.admin_a_identity)) by reflexivity.
  split; [exact Ha|].
  destruct (tenant_writes_ignore_scope Reference.env Reference.jwt_verify
              req Sample.db Sample.admin_a_identity Ha) as [H1 [_ [H3 _]]].
  split; [exact H1 | exact H3].
Defined.

Lemma login_role_matches_flag_witness :
  exists identity token decoded,
    post_api_login Reference.env Reference.bcrypt_compare Reference.jwt_sign
                   (Sample.request None "" "" (Sample.credentials "a@x.com" "secret"))
                   Sample.db
    = Js.Returns (mkResponse 200 (JsonLogin identity token), Sample.db)
    /\ Reference.jwt_verify token (JWT_SECRET Reference.env) = Some decoded
    /\ decoded = identity
    /\ au_id decoded = 2
    /\ au_email decoded = "a@x.com"
    /\ (au_role decoded = SUPERADMIN <-> false = true)
    /\ (au_role decoded = ADMIN <-> false = false).
Proof.
  apply (login_role_matches_flag
           Reference.env Reference.bcrypt_compare Reference.jwt_sign
           Reference.jwt_verify
           (Sample.request None "" "" (Sample.credentials "a@x.com" "secret"))
           Sample.db Sample.admin_a).
  - exact reference_jwt_verify_sign.
  - exact sample_emails_unique.
  - simpl. tauto.
  - reflexivity.
  - reflexivity.
Defined.

Lemma login_without_password_reveals_account_witness :
  let unknown := Sample.request None "" ""
                   (mkReqBody "nobody@x.com" None "" "" "" "" "" "" "") in
  let known := Sample.request None "" ""
                 (mkReqBody "a@x.com" None "" "" "" "" "" "" "") in
  post_api_login Reference.env Reference.bcrypt_compare Reference.jwt_sign
                 unknown Sample.db
  = Js.Returns (send 400 "Invalid email or password.", Sample.db)
  /\ post_api_login Reference.env Reference.bcrypt_compare Reference.jwt_sign
                    known Sample.db
     = Js.Throws "Illegal arguments".
Proof.
  intros unknown known. split.
  - apply (proj1 (login_without_password_reveals_account
                    Reference.env Reference.bcrypt_compare Reference.jwt_sign
                    unknown Sample.db eq_refl)).
    simpl. intros u [<-|[<-|[<-|[]]]]; discriminate.
  - apply (proj2 (login_without_password_reveals_account
                    Reference.env Reference.bcrypt_compare Reference.jwt_sign
                    known Sample.db eq_refl)).
    exists Sample.admin_a. simpl. tauto.
Defined.

(** With passwords that are strings the two failures of login are answered
    alike on the sample store. *)
Lemma sample_login_failures_alike :
  let unknown := Sample.request None "" "" (Sample.credentials "nobody@x.com" "secret") in
  let wrong := Sample.request None "" "" (Sample.credentials "a@x.com" "wrong") in
  post_api_login Reference.env Reference.bcrypt_compare Reference.jwt_sign
                 unknown Sample.db
  = post_api_login Reference.env Reference.bcrypt_compare Reference.jwt_sign
                   wrong Sample.db.
Proof. reflexivity. Qed.

Lemma superadminMiddleware_spec_witness :
  let req := Sample.request (Sample.bearer Sample.admin_a_token) "" "1"
                            Sample.no_fields in
  get_api_admins Reference.env Reference.jwt_verify req Sample.db
  = (send 403 "Forbidden. Superadmin access required.", Sample.db)
  /\ delete_api_admins Reference.env Reference.jwt_verify Reference.sql_id_eq
                       req Sample.db
     = (send 403 "Forbidden. Superadmin access required.", Sample.db).
Proof.
  intros req.
  apply (proj2 (proj2 (superadminMiddleware_spec
                         Reference.env Reference.jwt_verify Reference.sql_id_eq
                         req Sample.db))
           Sample.admin_a_identity).
  - reflexivity.
  - reflexivity.
Defined.

Lemma authMiddleware_spec_witness :
  let absent := Sample.request None "A" "" Sample.no_fields in
  let garbled := Sample.request (Sample.bearer "x.y.z") "A" "" Sample.no_fields in
  let valid := Sample.request (Sample.bearer Sample.admin_a_token) "A" ""
                              Sample.no_fields in
  authMiddleware Reference.env Reference.jwt_verify absent
  = Respond (send 401 "Access denied. No token provided.")
  /\ authMiddleware Reference.env Reference.jwt_verify garbled
     = Respond (send 400 "Invalid token.")
  /\ authMiddleware Reference.env Reference.jwt_verify valid
     = Next (set_user valid Sample.admin_a_identity).
Proof.
  intros absent garbled valid.
  split; [|split].
  - apply (proj1 (authMiddleware_spec Reference.env Reference.jwt_verify absent)).
    reflexivity.
  - apply (proj2 (proj2 (proj2 (authMiddleware_spec
                                  Reference.env Reference.jwt_verify garbled)))
             "Bearer" "x.y.z");
      [reflexivity | reflexivity | reflexivity | discriminate | reflexivity].
  - apply (proj2 (proj2 (proj2 (authMiddleware_spec
                                  Reference.env Reference.jwt_verify valid)))
             "Bearer" Sample.admin_a_token);
      [reflexivity | reflexivity | reflexivity | discriminate | reflexivity].
Defined.

Lemma initializeDatabase_no_write_witness :
  (exists u, In u (users Sample.db) /\ u_is_superadmin u = true)
  /\ initializeDatabase Reference.env Reference.bcrypt_hash "salt" Sample.db
     = Sql.Ok Sample.db.
Proof.
  assert (H : exists u, In u (users Sample.db) /\ u_is_superadmin u = true).
  { exists Sample.superadmin. simpl. tauto. }
  split; [exact H|].
  apply (proj1 (initializeDatabase_no_write
                  Reference.env Reference.bcrypt_hash "salt" Sample.db H)).
Defined.

(** On a store without superadmin the first run creates one, and the second
    run leaves the store of the first. *)
Lemma sample_bootstrap_fresh :
  exists db',
    initializeDatabase Reference.env Reference.bcrypt_hash "s1" Sample.db_fresh
    = Sql.Ok db'
    /\ length (Sql.select_users_by_flag db' true) = 1
    /\ initializeDatabase Reference.env Reference.bcrypt_hash "s2" db' = Sql.Ok db'.
Proof. eexists. vm_compute. repeat split. Qed.

Lemma delete_admin_keeps_superadmins_witness :
  let req := Sample.request (Sample.bearer Sample.superadmin_token) "" "1"
                            Sample.no_fields in
  In Sample.superadmin
     (users (snd (delete_api_admins Reference.env Reference.jwt_verify
                                    Reference.sql_id_eq req Sample.db))).
Proof.
  intros req.
  apply (delete_admin_keeps_superadmins
           Reference.env Reference.jwt_verify Reference.sql_id_eq
           req Sample.db Sample.superadmin).
  - simpl. tauto.
  - reflexivity.
Defined.

(** The same request naming a regular admin does remove it, and its row in
    club_admins with it. *)
Lemma sample_delete_admin_a :
  let req := Sample.request (Sample.bearer Sample.superadmin_token) "" "2"
                            Sample.no_fields in
  let db' := snd (delete_api_admins Reference.env Reference.jwt_verify
                                    Reference.sql_id_eq req Sample.db) in
  users db' = [ Sample.superadmin; Sample.unbound ] /\ club_admins db' = [].
Proof. vm_compute. split; reflexivity. Qed.

Lemma login_scope_defaults_to_wildcard_witness :
  exists identity,
    post_api_login Reference.env Reference.bcrypt_compare Reference.jwt_sign
                   (Sample.request None "" ""
                                   (Sample.credentials "c@x.com" "password123"))
                   Sample.db
    = Js.Returns
        (mkResponse 200
           (JsonLogin identity
                      (Reference.jwt_sign identity (JWT_SECRET Reference.env) 0)),
         Sample.db)
    /\ au_role identity = ADMIN /\ au_clubId identity = "*".
Proof.
  destruct (login_scope_defaults_to_wildcard
              Reference.env Reference.bcrypt_compare Reference.jwt_sign
              (Sample.request None "" ""
                              (Sample.credentials "c@x.com" "password123"))
              Sample.db Sample.unbound [])
    as [identity [Hres [_ [Hnone _]]]].
  - reflexivity.
  - reflexivity.
  - exists identity. split; [exact Hres|].
    apply Hnone; [reflexivity|].
    simpl. intros ca [<-|[]]. simpl. discriminate.
Defined.

Lemma delete_admin_always_204_witness :
  let req := Sample.request (Sample.bearer Sample.superadmin_token) "" "1"
                            Sample.no_fields in
  delete_api_admins Reference.env Reference.jwt_verify Reference.sql_id_eq
                    req Sample.db
  = (mkResponse 204 (Send None), Sample.db).
Proof.
  intros req.
  apply (proj2 (delete_admin_always_204
                  Reference.env Reference.jwt_verify Reference.sql_id_eq
                  req Sample.db Sample.superadmin_identity
                  eq_refl eq_refl)).
  simpl. intros x [<-|[<-|[<-|[]]]]; simpl; intros E;
    try discriminate; reflexivity.
Defined.

Lemma public_reads_need_no_token_witness :
  let req := Sample.request None "A" "" Sample.no_fields in
  authorization req = None
  /\ exists form,
       get_api_clubs_application req Sample.db
       = (mkResponse 200 (JsonForm form), Sample.db)
       /\ In form (application_forms Sample.db)
       /\ forall g, In g (application_forms Sample.db) ->
                    af_updatedAt g <= af_updatedAt form.
Proof.
  intros req. split; [reflexivity|].
  apply (proj1 (proj2 (proj2 (proj2 (proj2 (proj2
           (public_reads_need_no_token req Sample.db))))))).
  simpl. discriminate.
Defined.

(** The rows the public routes return for club "A" on the sample store. *)
Lemma sample_public_reads :
  let req := Sample.request None "A" "" Sample.no_fields in
  fst (get_api_clubs_team req Sample.db)
  = json (JsonTeam [ mkTeamMemberRow 1 "A" "Nimal" "President" "12" "" None ])
  /\ fst (get_api_clubs_news req Sample.db)
     = json (JsonNews [ mkNewsArticleRow 2 "A" "New" "x" "..." None 20;
                        mkNewsArticleRow 1 "A" "Old" "x" "..." None 10 ])
  /\ fst (get_api_clubs_application req Sample.db)
     = json (JsonForm (mkApplicationFormRow "/uploads/2-form.pdf" "form.pdf" 200)).
Proof. vm_compute. repeat split. Qed.

(** ** The upload storage and the theme effect *)

Lemma string_of_uint_dash (d d' : Decimal.uint) (r r' : string) :
  (NilEmpty.string_of_uint d ++ String "-" r)%string
  = (NilEmpty.string_of_uint d' ++ String "-" r')%string ->
  d = d' /\ r = r'.
Proof.
  revert d'. induction d; destruct d'; simpl; intros H;
    try discriminate;
    try (injection H as H; apply IHd in H as [-> ->]; now split).
  injection H as ->. now split.
Qed.

(** X22.  The name the disk storage gives an uploaded file determines the
    time of the upload and the name the client gave: two uploads get the same
    stored name exactly when they arrive in the same millisecond under the
    same original name. *)
Theorem storage_filename_inj (t1 t2 : nat) (name1 name2 : string) :
  storage_filename t1 name1 = storage_filename t2 name2
  <-> t1 = t2 /\ name1 = name2.
Proof.
  split.
  - unfold storage_filename. intros H.
    apply string_of_uint_dash in H as [Ht ->].
    split; [|reflexivity]. now apply DecimalNat.Unsigned.to_uint_inj.
  - now intros [-> ->].
Qed.

(** X23.  After the theme effect has run, the root element has the class
    "dark" exactly when the theme is "dark"; every other class is there if
    and only if it was there before, a class list without repeats stays
    without repeats, and running the effect again changes nothing. *)
Theorem theme_effect_sets_dark (theme : string) (classes : list string) :
  (In "dark" (App.theme_effect theme classes) <-> theme = "dark")
  /\ (forall c, c <> "dark" ->
        (In c (App.theme_effect theme classes) <-> In c classes))
  /\ (NoDup classes -> NoDup (App.theme_effect theme classes))
  /\ App.theme_effect theme (App.theme_effect theme classes)
     = App.theme_effect theme classes.
Proof.
  unfold App.theme_effect, App.classList_add, App.classList_remove.
  destruct (String.eqb_spec theme "dark") as [->|Hne].
  - destruct (existsb (String.eqb "dark") classes) eqn:Ex.
    + apply existsb_exists in Ex as [c [Hc Heq]]. apply String.eqb_eq in Heq.
      subst c. repeat split; auto.
      assert (Ex : existsb (String.eqb "dark") classes = true)
        by (apply existsb_exists; exists "dark"; split; [exact Hc | reflexivity]).
      now rewrite Ex.
    + assert (Hnot : ~ In "dark" classes).
      { intros Hin. assert (E : existsb (String.eqb "dark") classes = true)
          by (apply existsb_exists; exists "dark"; now split).
        congruence. }
      split; [|split; [|split]].
      * split; [reflexivity|]. intros _. apply in_or_app. right. now left.
      * intros c Hc. rewrite in_app_iff. simpl. intuition congruence.
      * intros Hnd. apply NoDup_app; [exact Hnd | repeat constructor; intros [] |].
        intros a Ha [<-|[]]. contradiction.
      * rewrite existsb_app. simpl. now rewrite orb_true_r.
  - split; [|split; [|split]].
    + split; [|contradiction].
      intros Hin. apply filter_In in Hin as [_ Hin].
      now rewrite String.eqb_refl in Hin.
    + intros c Hc. rewrite filter_In, negb_true_iff, String.eqb_neq. tauto.
    + apply NoDup_filter.
    + induction classes as [|c cs IH]; simpl; [reflexivity|].
      destruct (String.eqb c "dark") eqn:E; simpl; [exact IH|].
      rewrite E. simpl. now rewrite IH.
Qed.

(** ** The further theorems on the sample store *)

Lemma sample_users_wf : users_wf Sample.db.
Proof.
  unfold users_wf. simpl. repeat split.
  - exact sample_emails_unique.
  - repeat constructor; simpl; intuition discriminate.
  - intros u [<-|[<-|[<-|[]]]]; simpl; lia.
  - intros ca [<-|[]]. exists Sample.admin_a. simpl. tauto.
Qed.

Lemma authMiddleware_reads_second_field_witness :
  let req := Sample.request
               (Some ("Token " ++ Sample.admin_a_token ++ " and more")%string)
               "A" "" Sample.no_fields in
  let spaced := Sample.request
                  (Some ("Bearer  " ++ Sample.admin_a_token)%string)
                  "A" "" Sample.no_fields in
  authMiddleware Reference.env Reference.jwt_verify req
  = Next (set_user req Sample.admin_a_identity)
  /\ authMiddleware Reference.env Reference.jwt_verify spaced
     = Respond (send 401 "Access denied. No token provided.").
Proof.
  intros req spaced. split.
  - apply (proj2 (authMiddleware_reads_second_field
                    Reference.env Reference.jwt_verify req
                    "Token" Sample.admin_a_token "and more"
                    eq_refl eq_refl eq_refl)).
    discriminate.
  - apply (proj1 (authMiddleware_reads_second_field
                    Reference.env Reference.jwt_verify spaced
                    "Bearer" "" Sample.admin_a_token
                    eq_refl eq_refl eq_refl)).
    reflexivity.
Defined.

Lemma refused_requests_write_nothing_witness :
  let req := Sample.request None "B" "1" Sample.member_fields in
  post_api_clubs_team Reference.env Reference.jwt_verify req Sample.db
  = (send 401 "Access denied. No token provided.", Sample.db)
  /\ post_api_admins Reference.env Reference.bcrypt_hash Reference.jwt_verify
                     "s4" "B" req Sample.db
     = Sql.Ok (Plain (send 401 "Access denied. No token provided."), Sample.db).
Proof.
  intros req.
  destruct (refused_requests_write_nothing
              Reference.env Reference.bcrypt_hash Reference.jwt_verify
              Reference.sql_id_eq req Sample.db
              (send 401 "Access denied. No token provided.")
              "s4" "B" "1" 0 eq_refl)
    as [H1 [_ [_ [_ [_ [_ H7]]]]]].
  split; [exact H1 | exact H7].
Defined.

Lemma login_token_is_accepted_witness :
  let req := Sample.request (Sample.bearer Sample.admin_a_token) "B" ""
                            Sample.member_fields in
  authMiddleware Reference.env Reference.jwt_verify req
  = Next (set_user req Sample.admin_a_identity)
  /\ forall later : Db,
       status (fst (post_api_clubs_team Reference.env Reference.jwt_verify
                                        req later)) = 201.
Proof.
  intros req.
  apply (login_token_is_accepted
           Reference.env Reference.bcrypt_compare Reference.jwt_sign
           Reference.jwt_verify
           (Sample.request None "" "" (Sample.credentials "a@x.com" "secret"))
           req Sample.db Sample.db Sample.admin_a_identity Sample.admin_a_token).
  - exact reference_jwt_verify_sign.
  - reflexivity.
  - reflexivity.
  - discriminate.
  - reflexivity.
Defined.

Lemma default_secret_tokens_accepted_witness :
  let req := Sample.request (Sample.bearer Sample.superadmin_token) "" ""
                            Sample.no_fields in
  authMiddleware Reference.env Reference.jwt_verify req
  = Next (set_user req Sample.superadmin_identity)
  /\ (au_role Sample.superadmin_identity = SUPERADMIN ->
      forall (handler : Handler) (db : Db),
        run_route [ authMiddleware Reference.env Reference.jwt_verify;
                    superadminMiddleware ] handler req db
        = handler (set_user req Sample.superadmin_identity) db).
Proof.
  intros req.
  apply (default_secret_tokens_accepted
           Reference.env Reference.jwt_sign Reference.jwt_verify
           req Sample.superadmin_identity 0).
  - exact reference_jwt_verify_sign.
  - left. reflexivity.
  - reflexivity.
  - discriminate.
  - reflexivity.
Defined.

Lemma sample_fresh_no_superadmin :
  forall u, In u (users Sample.db_fresh) -> u_is_superadmin u = false.
Proof. intros u [<-|[]]. reflexivity. Qed.

Lemma initializeDatabase_creates_one_superadmin_witness :
  exists db' created,
    initializeDatabase Reference.env Reference.bcrypt_hash "s1" Sample.db_fresh
    = Sql.Ok db'
    /\ users db' = users Sample.db_fresh ++ [ created ]
    /\ club_admins db' = club_admins Sample.db_fresh
    /\ u_email created = "superadmin@example.com"
    /\ u_password_hash created = Reference.bcrypt_hash "password123" 10 "s1"
    /\ u_id created = 3
    /\ Sql.select_users_by_flag db' true = [ created ].
Proof.
  apply (initializeDatabase_creates_one_superadmin
           Reference.env Reference.bcrypt_hash "s1" Sample.db_fresh).
  - exact sample_fresh_no_superadmin.
  - intros u [<-|[]]. discriminate.
Defined.

Lemma initializeDatabase_email_taken_witness :
  initializeDatabase (mkEnv None (Some "a@x.com") None) Reference.bcrypt_hash
                     "s1" Sample.db_fresh
  = Sql.Err "ER_DUP_ENTRY".
Proof.
  apply (initializeDatabase_email_taken
           (mkEnv None (Some "a@x.com") None) Reference.bcrypt_hash
           "s1" Sample.db_fresh Sample.admin_a).
  - exact sample_fresh_no_superadmin.
  - simpl. tauto.
  - reflexivity.
Defined.

Lemma bootstrap_then_login_witness :
  let login := Sample.request None "" ""
                 (Sample.credentials "superadmin@example.com" "password123") in
  exists db',
    initializeDatabase Reference.env Reference.bcrypt_hash "s1" Sample.db_fresh
    = Sql.Ok db'
    /\ post_api_login Reference.env Reference.bcrypt_compare Reference.jwt_sign
                      login db'
       = Js.Returns
           (json (JsonLogin
                    (mkAdminUser 3 "superadmin@example.com" SUPERADMIN "*")
                    (Reference.jwt_sign
                       (mkAdminUser 3 "superadmin@example.com" SUPERADMIN "*")
                       "your_default_secret" 0)),
            db').
Proof.
  intros login.
  apply (bootstrap_then_login
           Reference.env Reference.bcrypt_hash Reference.bcrypt_compare
           Reference.jwt_sign "s1" Sample.db_fresh login).
  - exact sample_fresh_no_superadmin.
  - intros u [<-|[]]. discriminate.
  - reflexivity.
  - reflexivity.
  - reflexivity.
Defined.

Lemma create_admin_then_login_witness :
  let req := Sample.request (Sample.bearer Sample.superadmin_token) "" ""
                            (Sample.credentials "d@x.com" "") in
  let login := Sample.request None "" ""
                              (Sample.credentials "d@x.com" "password123") in
  let identity := mkAdminUser 4 "d@x.com" ADMIN "B" in
  exists db',
    post_api_admins Reference.env Reference.bcrypt_hash Reference.jwt_verify
                    "s4" "B" req Sample.db
    = Sql.Ok (CreatedAdmin identity, db')
    /\ post_api_login Reference.env Reference.bcrypt_compare Reference.jwt_sign
                      login db'
       = Js.Returns
           (json (JsonLogin identity
                    (Reference.jwt_sign identity "your_default_secret" 0)),
            db').
Proof.
  intros req login identity.
  apply (create_admin_then_login
           Reference.env Reference.bcrypt_hash Reference.bcrypt_compare
           Reference.jwt_sign Reference.jwt_verify
           "s4" "B" req login Sample.db Sample.superadmin_identity).
  - exact sample_users_wf.
  - reflexivity.
  - reflexivity.
  - intros u [<-|[<-|[<-|[]]]]; discriminate.
  - reflexivity.
  - reflexivity.
  - reflexivity.
Defined.

Lemma create_admin_email_taken_witness :
  let req := Sample.request (Sample.bearer Sample.superadmin_token) "" ""
                            (Sample.credentials "a@x.com" "") in
  post_api_admins Reference.env Reference.bcrypt_hash Reference.jwt_verify
                  "s4" "B" req Sample.db
  = Sql.Err "ER_DUP_ENTRY".
Proof.
  intros req.
  apply (create_admin_email_taken
           Reference.env Reference.bcrypt_hash Reference.jwt_verify
           "s4" "B" req Sample.db Sample.superadmin_identity Sample.admin_a).
  - reflexivity.
  - reflexivity.
  - simpl. tauto.
  - reflexivity.
Defined.

Lemma create_admin_needs_superadmin_witness :
  let req := Sample.request (Sample.bearer Sample.admin_a_token) "" ""
                            (Sample.credentials "d@x.com" "") in
  post_api_admins Reference.env Reference.bcrypt_hash Reference.jwt_verify
                  "s4" "B" req Sample.db
  = Sql.Ok (Plain (send 403 "Forbidden. Superadmin access required."), Sample.db).
Proof.
  intros req.
  apply (create_admin_needs_superadmin
           Reference.env Reference.bcrypt_hash Reference.jwt_verify
           "s4" "B" req Sample.db Sample.admin_a_identity).
  - reflexivity.
  - discriminate.
Defined.

Lemma delete_admin_then_login_witness :
  let req := Sample.request (Sample.bearer Sample.superadmin_token) "" "2"
                            Sample.no_fields in
  let login := Sample.request None "" "" (Sample.credentials "a@x.com" "secret") in
  let db' := snd (delete_api_admins Reference.env Reference.jwt_verify
                                    Reference.sql_id_eq req Sample.db) in
  ~ In Sample.admin_a (users db')
  /\ post_api_login Reference.env Reference.bcrypt_compare Reference.jwt_sign
                    login db'
     = Js.Returns (send 400 "Invalid email or password.", db').
Proof.
  intros req login.
  apply (delete_admin_then_login
           Reference.env Reference.bcrypt_compare Reference.jwt_sign
           Reference.jwt_verify Reference.sql_id_eq
           req login Sample.db Sample.superadmin_identity Sample.admin_a).
  - exact sample_emails_unique.
  - reflexivity.
  - reflexivity.
  - simpl. tauto.
  - reflexivity.
  - reflexivity.
  - reflexivity.
Defined.

Lemma admin_list_shows_accounts_witness :
  let req := Sample.request (Sample.bearer Sample.superadmin_token) "" ""
                            Sample.no_fields in
  exists rows,
    get_api_admins Reference.env Reference.jwt_verify req Sample.db
    = (mkResponse 200 (JsonAdmins rows), Sample.db)
    /\ length rows = 3.
Proof.
  intros req.
  destruct (admin_list_shows_accounts
              Reference.env Reference.jwt_verify req Sample.db
              Sample.superadmin_identity eq_refl eq_refl)
    as [rows [Hres [_ [_ Hlen]]]].
  exists rows. split; [exact Hres|].
  apply Hlen. intros u [<-|[<-|[<-|[]]]]; simpl; lia.
Defined.

Lemma admin_list_has_login_identity_witness :
  let req := Sample.request (Sample.bearer Sample.superadmin_token) "" ""
                            Sample.no_fields in
  exists rows,
    get_api_admins Reference.env Reference.jwt_verify req Sample.db
    = (mkResponse 200 (JsonAdmins rows), Sample.db)
    /\ In Sample.admin_a_identity rows.
Proof.
  intros req.
  apply (admin_list_has_login_identity
           Reference.env Reference.bcrypt_compare Reference.jwt_sign
           Reference.jwt_verify
           (Sample.request None "" "" (Sample.credentials "a@x.com" "secret"))
           req Sample.db Sample.db Sample.superadmin_identity
           Sample.admin_a_identity Sample.admin_a_token).
  - reflexivity.
  - discriminate.
  - discriminate.
  - reflexivity.
  - reflexivity.
Defined.

Lemma post_team_then_get_team_witness :
  let req := Sample.request (Sample.bearer Sample.admin_a_token) "B" ""
                            Sample.member_fields in
  let reader := Sample.request None "A" "" Sample.no_fields in
  let db' := snd (post_api_clubs_team Reference.env Reference.jwt_verify
                                      req Sample.db) in
  fst (get_api_clubs_team reader db') = fst (get_api_clubs_team reader Sample.db).
Proof.
  intros req reader.
  apply (proj2 (post_team_then_get_team
                  Reference.env Reference.jwt_verify req reader Sample.db
                  Sample.admin_a_identity eq_refl)).
  discriminate.
Defined.

Lemma post_news_then_get_news_witness :
  let req := Sample.request (Sample.bearer Sample.admin_a_token) "A" ""
                            Sample.member_fields in
  let reader := Sample.request None "A" "" Sample.no_fields in
  let article := mkNewsArticleRow 4 "A" "Match report" "Sunil" "We won." None 0 in
  exists db',
    post_api_clubs_news Reference.env Reference.jwt_verify req Sample.db
    = (mkResponse 201 (JsonNewsCreated (Some article)), db')
    /\ exists rows,
         get_api_clubs_news reader db' = (mkResponse 200 (JsonNews rows), db')
         /\ In article rows.
Proof.
  intros req reader article.
  destruct (post_news_then_get_news
              Reference.env Reference.jwt_verify req reader Sample.db
              Sample.admin_a_identity eq_refl)
    as [db' [Hpost [Hsame _]]].
  - intros a [<-|[<-|[<-|[]]]]; simpl; lia.
  - exists db'. split; [exact Hpost|]. apply Hsame. reflexivity.
Defined.

Lemma put_application_then_get_witness :
  let req := mkRequest (Sample.bearer Sample.admin_a_token) "" "" Sample.no_fields
                       (Some (mkUploadedFile "300-form.pdf" "form.pdf"))
                       None None 300 in
  let reader := Sample.request None "B" "" Sample.no_fields in
  exists db',
    put_api_application Reference.env Reference.jwt_verify 301 req Sample.db
    = (mkResponse 200
         (JsonForm (mkApplicationFormRow "/uploads/300-form.pdf" "form.pdf" 301)),
       db')
    /\ get_api_clubs_application reader db'
       = (mkResponse 200
            (JsonForm (mkApplicationFormRow "/uploads/300-form.pdf" "form.pdf" 300)),
          db').
Proof.
  intros req reader.
  apply (proj1 (put_application_then_get
                  Reference.env Reference.jwt_verify 301 req reader Sample.db
                  Sample.admin_a_identity eq_refl)
           (mkUploadedFile "300-form.pdf" "form.pdf") eq_refl).
  intros g [<-|[<-|[]]]; simpl; lia.
Defined.

Lemma delete_team_member_any_club_witness :
  let req := Sample.request (Sample.bearer Sample.admin_a_token) "" ""
                            Sample.no_fields in
  exists db',
    delete_api_team Reference.env Reference.jwt_verify Reference.sql_id_eq
                    "2" req Sample.db
    = (mkResponse 204 (Send None), db')
    /\ (forall m, In m (team_members db') <->
                  In m (team_members Sample.db)
                  /\ Reference.sql_id_eq (tm_id m) "2" = false)
    /\ users db' = users Sample.db /\ club_admins db' = club_admins Sample.db.
Proof.
  intros req.
  apply (delete_team_member_any_club
           Reference.env Reference.jwt_verify Reference.sql_id_eq
           "2" req Sample.db Sample.admin_a_identity eq_refl).
Defined.

(** Admin a@x.com, of club "A", deletes the member of club "B". *)
Lemma sample_delete_team_member :
  let req := Sample.request (Sample.bearer Sample.admin_a_token) "" ""
                            Sample.no_fields in
  team_members (snd (delete_api_team Reference.env Reference.jwt_verify
                                     Reference.sql_id_eq "2" req Sample.db))
  = [ mkTeamMemberRow 1 "A" "Nimal" "President" "12" "" None ].
Proof. reflexivity. Qed.
